(** * Dex CRM MCP server: client request construction and tool dispatch

    A shallow embedding of [dex_mcp_server/client.py] (class [DexClient]) and
    [dex_mcp_server/server.py] ([get_client], [list_tools], [call_tool]).

    Python values are embedded as [value]; a [dict] with string keys is a
    finite map [gmap string value] (key order is not represented).  Code
    that talks to the outside (the HTTP stack, the clock, [json.dumps]) is
    threaded through an explicit state and taken as section variables. *)

From Stdlib Require Import ZArith String Ascii List Floats.SpecFloat.
From stdpp Require Import base option gmap strings list fin_maps pretty.

Local Open Scope string_scope.
Local Open Scope Z_scope.
Local Set Warnings "-register-all".

(** ** Python values *)

(** The values that flow through the program: what [json.loads] produces
    ([None], [bool], [int], [float], [str], [list], [dict]). *)
Inductive value : Type :=
  | VNone
  | VBool (b : bool)
  | VInt (z : Z)
  | VFloat (f : spec_float)
  | VStr (s : string)
  | VList (l : list value)
  | VDict (d : gmap string value).

(** Python's truth test, as used by [if email:], [if phone:] and
    [if contact_ids:]. *)
Definition truthy (v : value) : bool :=
  match v with
  | VNone => false
  | VBool b => b
  | VInt z => negb (z =? 0)
  | VFloat (S754_zero _) => false
  | VFloat _ => true
  | VStr s => negb (String.eqb s "")
  | VList l => match l with [] => false | _ => true end
  | VDict d => negb (bool_decide (d = ∅))
  end.

(** [v is None] *)
Definition is_none (v : value) : bool :=
  match v with VNone => true | _ => false end.

(** [type(v).__name__], as it appears in Python's error messages. *)
Definition type_name (v : value) : string :=
  match v with
  | VNone => "NoneType"
  | VBool _ => "bool"
  | VInt _ => "int"
  | VFloat _ => "float"
  | VStr _ => "str"
  | VList _ => "list"
  | VDict _ => "dict"
  end.

(** ** Exceptions *)

(** Instances of [Exception], the class the [except] clause of
    [call_tool] catches.  [OtherError] stands for the exceptions of the
    HTTP stack ([httpx.HTTPStatusError], [httpx.TimeoutException], a JSON
    decoding error, ...) with their class name and message.  Signals that
    derive from [BaseException] only (task cancellation, keyboard
    interrupt) are not part of the model. *)
Inductive exn : Type :=
  | KeyError (key : string)
  | TypeError (msg : string)
  | ValueError (msg : string)
  | OtherError (cls msg : string).

(** [str(e)].  A [KeyError] prints the [repr] of the missing key; the keys
    looked up by this program are the identifier literals of [call_tool],
    whose [repr] is the key between single quotes. *)
Definition str_exn (e : exn) : string :=
  match e with
  | KeyError k => "'" ++ k ++ "'"
  | TypeError m => m
  | ValueError m => m
  | OtherError _ m => m
  end.

(** Outcome of running a piece of Python: it raises or it returns. *)
Inductive res (A : Type) : Type :=
  | Raise (e : exn)
  | Return (a : A).
Arguments Raise {A} e.
Arguments Return {A} a.

(** A dict display [{k1: v1, ..., kn: vn}]. *)
Definition dict (items : list (string * value)) : gmap string value :=
  list_to_map items.

(** ** The HTTP boundary *)

(** What [httpx.AsyncClient(...)] is configured with in [DexClient.__init__]. *)
Record AsyncClient : Type := {
  base_url : string;
  headers : list (string * string);
  timeout : Z               (* seconds *)
}.

Record DexClient : Type := {
  api_key : string;
  _http : AsyncClient       (* self._client *)
}.

Definition BASE_URL : string := "https://api.getdex.com/api/rest".

(** The object [DexClient.__init__] leaves behind when the
    [httpx.AsyncClient] is built. *)

Definition dex_client (api_key : string) : DexClient :=
  {| api_key := api_key;
     _http := {| base_url := BASE_URL;
                 headers := [("Content-Type", "application/json");
                             ("x-hasura-dex-api-key", api_key)];
                 timeout := 30 |} |}.

(** The arguments of [self._client.request(method, path, params=, json=)]. *)
Record Request : Type := {
  req_method : string;
  req_path : string;
  req_params : option (gmap string value);
  req_json : option (gmap string value)
}.

(** The two methods of an [httpx.Response] that [_request] calls:
    [raise_for_status()] raises or not, [json()] raises or decodes. *)
Record Response : Type := {
  raise_for_status : option exn;
  resp_json : res value
}.

Record TextContent : Type := {
  type : string;
  text : string
}.

(** ** The host: what the program calls but does not define *)

(** [World] is everything outside the process (the remote API, the clock). *)
Class Host (World : Type) : Type := {
  (** [await self._client.request(...)]: the HTTP stack answers with a
      response or raises (connection failure, timeout). *)
  http_request : AsyncClient → Request → World → res Response * World;
  (** [datetime.now(timezone.utc).isoformat()] *)
  utcnow_isoformat : World → string * World;
  (** [json.dumps(result, indent=2)] on a decoded response body. *)
  json_dumps : value → string;
  (** How an f-string renders a float, a list or a dict. *)
  format_other : value → string;
  (** [httpx.AsyncClient(base_url=, headers=, timeout=)]: the exception it
      raises, if it raises (httpx encodes header values when the client
      is built, and a value it cannot encode is an error). *)
  async_client_error : string → list (string * string) → Z → option exn;
  (** The characters of a [str], in order, as [for c in s] yields them. *)
  code_points : string → list string;
  (** The keys of a dict in the order [for k in d] yields them (insertion
      order, which the finite map does not record). *)
  key_order : gmap string value → list string
}.

(** ** The client and the dispatcher *)

Section Dex.

Context `{Host World}.

(** The process state: the module global [_client], [os.environ], the
    outside world, and the requests handed to the HTTP stack so far. *)
Record State : Type := {
  _client : option DexClient;
  environ : gmap string string;
  world : World;
  wire : list Request
}.

(** A computation may read and change the state, and raises or returns. *)
Definition M (A : Type) : Type := State → res A * State.

#[global] Instance M_ret : MRet M := λ A a st, (Return a, st).

#[global] Instance M_bind : MBind M := λ A B k m st,
  match m st with
  | (Return a, st') => k a st'
  | (Raise e, st') => (Raise e, st')
  end.

Definition raise {A} (e : exn) : M A := λ st, (Raise e, st).

Definition lift {A} (r : res A) : M A := λ st, (r, st).

(** [try: body / except Exception as e: handler(e)] *)
Definition try_except {A} (body : M A) (handler : exn → M A) : M A := λ st,
  match body st with
  | (Return a, st') => (Return a, st')
  | (Raise e, st') => handler e st'
  end.

(** The replacement field [{v}] of an f-string. *)
Definition format_value (v : value) : string :=
  match v with
  | VStr s => s
  | VNone => "None"
  | VBool true => "True"
  | VBool false => "False"
  | VInt z => pretty z
  | _ => format_other v
  end.

(** Iterating over a value, as the comprehension [for cid in contact_ids]
    does: a list yields its items, a string its characters, a dict its
    keys; anything else is not iterable. *)
Definition py_iter (v : value) : res (list value) :=
  match v with
  | VList l => Return l
  | VStr s => Return (VStr <$> code_points s)
  | VDict d => Return (VStr <$> key_order d)
  | _ => Raise (TypeError ("'" ++ type_name v ++ "' object is not iterable"))
  end.

(** [[{"contact_id": cid} for cid in contact_ids]] *)
Definition contact_refs (contact_ids : value) : res value :=
  match py_iter contact_ids with
  | Raise e => Raise e
  | Return l => Return (VList ((λ cid, VDict {["contact_id" := cid]}) <$> l))
  end.

(** *** client.py *)

(** [DexClient.__init__]: building the [httpx.AsyncClient] may raise;
    otherwise the object holds the key and the configured client. *)
Definition DexClient__init__ (api_key : string) : res DexClient :=
  match async_client_error BASE_URL
          [("Content-Type", "application/json");
           ("x-hasura-dex-api-key", api_key)] 30 with
  | Some e => Raise e
  | None => Return (dex_client api_key)
  end.

Definition _request (self : DexClient) (method path : string)
    (params json : option (gmap string value)) : M value := λ st,
  let req := {| req_method := method; req_path := path;
                req_params := params; req_json := json |} in
  let '(r, w) := http_request (_http self) req (world st) in
  let st' := {| _client := _client st; environ := environ st;
                world := w; wire := wire st ++ [req] |} in
  match r with
  | Raise e => (Raise e, st')
  | Return response =>
      match raise_for_status response with
      | Some e => (Raise e, st')
      | None => (resp_json response, st')
      end
  end.

(** Contacts *)

Definition list_contacts (self : DexClient) (limit offset : value) : M value :=
  _request self "GET" "/contacts"
    (Some (dict [("limit", limit); ("offset", offset)])) None.

Definition get_contact (self : DexClient) (contact_id : value) : M value :=
  _request self "GET" ("/contacts/" ++ format_value contact_id) None None.

Definition search_contacts_by_email (self : DexClient) (email : value) : M value :=
  _request self "GET" "/search/contacts" (Some (dict [("email", email)])) None.

(** The local [contact_data] of [create_contact] when the request is made. *)
Definition create_contact_data
    (first_name last_name email phone phone_label job_title description
     linkedin twitter instagram website : value) : gmap string value :=
  let contact_data := dict [
    ("first_name", first_name);
    ("last_name", last_name);
    ("job_title", job_title);
    ("description", description);
    ("linkedin", linkedin);
    ("twitter", twitter);
    ("instagram", instagram);
    ("website", website)] in
  let contact_data :=
    if truthy email
    then <["contact_emails" := VDict (dict [("data", VDict (dict [("email", email)]))])]>
           contact_data
    else contact_data in
  let contact_data :=
    if truthy phone
    then <["contact_phone_numbers" :=
             VDict (dict [("data", VDict (dict [("phone_number", phone);
                                                ("label", phone_label)]))])]>
           contact_data
    else contact_data in
  contact_data.

Definition create_contact (self : DexClient)
    (first_name last_name email phone phone_label job_title description
     linkedin twitter instagram website : value) : M value :=
  _request self "POST" "/contacts" None
    (Some (dict [("contact", VDict (create_contact_data first_name last_name
                    email phone phone_label job_title description
                    linkedin twitter instagram website))])).

(** [fields] is the dict collected by [**fields]. *)
Definition update_contact (self : DexClient) (contact_id : value)
    (fields : gmap string value) : M value :=
  _request self "PUT" ("/contacts/" ++ format_value contact_id) None
    (Some (dict [("contact", VDict fields)])).

Definition delete_contact (self : DexClient) (contact_id : value) : M value :=
  _request self "DELETE" ("/contacts/" ++ format_value contact_id) None None.

(** Notes (timeline items) *)

Definition list_notes (self : DexClient) (limit offset : value) : M value :=
  _request self "GET" "/timeline_items"
    (Some (dict [("limit", limit); ("offset", offset)])) None.

Definition get_notes_for_contact (self : DexClient) (contact_id : value) : M value :=
  _request self "GET" ("/timeline_items/contacts/" ++ format_value contact_id)
    None None.

(** The local [timeline_event] of [create_note], with [event_time]
    already defaulted and the comprehension already evaluated. *)
Definition timeline_event (note event_time contacts : value) : gmap string value :=
  dict [
    ("note", note);
    ("event_time", event_time);
    ("meeting_type", VStr "note");
    ("timeline_items_contacts", VDict (dict [("data", contacts)]))].

Definition create_note (self : DexClient) (note contact_ids event_time : value)
    : M value :=
  event_time ← (if is_none event_time
                then λ st, let '(now, w) := utcnow_isoformat (world st) in
                           (Return (VStr now),
                            {| _client := _client st; environ := environ st;
                               world := w; wire := wire st |})
                else mret event_time);
  contacts ← lift (contact_refs contact_ids);
  _request self "POST" "/timeline_items" None
    (Some (dict [("timeline_event",
                  VDict (timeline_event note event_time contacts))])).

Definition update_note (self : DexClient) (note_id note : value) : M value :=
  _request self "PUT" ("/timeline_items/" ++ format_value note_id) None
    (Some (dict [("timeline_event", VDict (dict [("note", note)]))])).

Definition delete_note (self : DexClient) (note_id : value) : M value :=
  _request self "DELETE" ("/timeline_items/" ++ format_value note_id) None None.

(** Reminders *)

Definition list_reminders (self : DexClient) (limit offset : value) : M value :=
  _request self "GET" "/reminders"
    (Some (dict [("limit", limit); ("offset", offset)])) None.

(** The local [reminder_data] of [create_reminder] when the request is
    made, or the exception of the comprehension over [contact_ids]. *)
Definition create_reminder_data (title due_date contact_ids text is_complete : value)
    : res (gmap string value) :=
  let reminder_data := dict [
    ("title", title);
    ("text", text);
    ("is_complete", is_complete);
    ("due_at_date", due_date)] in
  if truthy contact_ids
  then match contact_refs contact_ids with
       | Raise e => Raise e
       | Return contacts =>
           Return (<["reminders_contacts" := VDict (dict [("data", contacts)])]>
                     reminder_data)
       end
  else Return reminder_data.

Definition create_reminder (self : DexClient)
    (title due_date contact_ids text is_complete : value) : M value :=
  reminder_data ← lift (create_reminder_data title due_date contact_ids text
                          is_complete);
  _request self "POST" "/reminders" None
    (Some (dict [("reminder", VDict reminder_data)])).

(** The local [reminder_data] of [update_reminder] when the request is made. *)
Definition update_reminder_data (title text due_date is_complete : value)
    : gmap string value :=
  let reminder_data : gmap string value := ∅ in
  let reminder_data :=
    if negb (is_none title) then <["title" := title]> reminder_data
    else reminder_data in
  let reminder_data :=
    if negb (is_none text) then <["text" := text]> reminder_data
    else reminder_data in
  let reminder_data :=
    if negb (is_none due_date) then <["due_at_date" := due_date]> reminder_data
    else reminder_data in
  let reminder_data :=
    if negb (is_none is_complete) then <["is_complete" := is_complete]> reminder_data
    else reminder_data in
  reminder_data.

Definition update_reminder (self : DexClient)
    (reminder_id title text due_date is_complete : value) : M value :=
  _request self "PUT" ("/reminders/" ++ format_value reminder_id) None
    (Some (dict [("reminder",
                  VDict (update_reminder_data title text due_date is_complete))])).

Definition delete_reminder (self : DexClient) (reminder_id : value) : M value :=
  _request self "DELETE" ("/reminders/" ++ format_value reminder_id) None None.

(** [self.update_reminder(reminder_id, is_complete=True)]: the other
    parameters take their default [None]. *)
Definition complete_reminder (self : DexClient) (reminder_id : value) : M value :=
  update_reminder self reminder_id VNone VNone VNone (VBool true).

(** *** server.py *)

(** [os.environ.get("DEX_API_KEY")], then [if not api_key: raise ...];
    the client is built once and kept in the global [_client]; when
    [DexClient(api_key)] raises, the global stays [None]. *)
Definition get_client : M DexClient := λ st,
  match _client st with
  | None =>
      let api_key := environ st !! "DEX_API_KEY" in
      match api_key with
      | Some key =>
          if negb (String.eqb key "")
          then match DexClient__init__ key with
               | Return c =>
                   (Return c, {| _client := Some c; environ := environ st;
                                 world := world st; wire := wire st |})
               | Raise e => (Raise e, st)
               end
          else (Raise (ValueError
                  ("DEX_API_KEY environment variable is required. " ++
                   "Get your API key from https://getdex.com/appv3/settings/api")),
                st)
      | None =>
          (Raise (ValueError
             ("DEX_API_KEY environment variable is required. " ++
              "Get your API key from https://getdex.com/appv3/settings/api")),
           st)
      end
  | Some c => (Return c, st)
  end.

(** [arguments[key]] *)
Definition getitem (arguments : gmap string value) (key : string) : M value :=
  match arguments !! key with
  | Some v => mret v
  | None => raise (KeyError key)
  end.

(** [arguments.get(key, default)]; [arguments.get(key)] has default [None]. *)
Definition get (arguments : gmap string value) (key : string) (default : value)
    : value :=
  match arguments !! key with
  | Some v => v
  | None => default
  end.

(** [arguments.pop(key)]: the value, and the dict without the key. *)
Definition pop (arguments : gmap string value) (key : string)
    : M (value * gmap string value) :=
  match arguments !! key with
  | Some v => mret (v, delete key arguments)
  | None => raise (KeyError key)
  end.

(** [client.update_contact(contact_id, **arguments)]: a key [self] in the
    mapping collides with the bound first parameter (the key
    [contact_id] has been popped by then). *)
Definition call_update_contact (client : DexClient) (contact_id : value)
    (arguments : gmap string value) : M value :=
  match arguments !! "self" with
  | Some _ =>
      raise (TypeError
        "DexClient.update_contact() got multiple values for argument 'self'")
  | None => update_contact client contact_id arguments
  end.

(** [return [TextContent(type="text", text=json.dumps(result, indent=2))]] *)
Definition return_result (call : M value) : M (list TextContent) :=
  result ← call;
  mret [{| type := "text"; text := json_dumps result |}].

(** The body of the [try] statement of [call_tool]. *)
Definition call_tool_try (client : DexClient) (name : string)
    (arguments : gmap string value) : M (list TextContent) :=
  (* Contacts *)
  if String.eqb name "dex_list_contacts" then
    return_result (list_contacts client
      (get arguments "limit" (VInt 10))
      (get arguments "offset" (VInt 0)))
  else if String.eqb name "dex_get_contact" then
    return_result (contact_id ← getitem arguments "contact_id";
                   get_contact client contact_id)
  else if String.eqb name "dex_search_contacts" then
    return_result (email ← getitem arguments "email";
                   search_contacts_by_email client email)
  else if String.eqb name "dex_create_contact" then
    return_result (first_name ← getitem arguments "first_name";
                   last_name ← getitem arguments "last_name";
                   create_contact client first_name last_name
                     (get arguments "email" VNone)
                     (get arguments "phone" VNone)
                     (get arguments "phone_label" (VStr "Work"))
                     (get arguments "job_title" VNone)
                     (get arguments "description" VNone)
                     (get arguments "linkedin" VNone)
                     (get arguments "twitter" VNone)
                     (get arguments "instagram" VNone)
                     (get arguments "website" VNone))
  else if String.eqb name "dex_update_contact" then
    return_result ('(contact_id, arguments) ← pop arguments "contact_id";
                   call_update_contact client contact_id arguments)
  else if String.eqb name "dex_delete_contact" then
    return_result (contact_id ← getitem arguments "contact_id";
                   delete_contact client contact_id)
  (* Notes *)
  else if String.eqb name "dex_list_notes" then
    return_result (list_notes client
      (get arguments "limit" (VInt 10))
      (get arguments "offset" (VInt 0)))
  else if String.eqb name "dex_get_notes_for_contact" then
    return_result (contact_id ← getitem arguments "contact_id";
                   get_notes_for_contact client contact_id)
  else if String.eqb name "dex_create_note" then
    return_result (note ← getitem arguments "note";
                   contact_ids ← getitem arguments "contact_ids";
                   create_note client note contact_ids
                     (get arguments "event_time" VNone))
  else if String.eqb name "dex_update_note" then
    return_result (note_id ← getitem arguments "note_id";
                   note ← getitem arguments "note";
                   update_note client note_id note)
  else if String.eqb name "dex_delete_note" then
    return_result (note_id ← getitem arguments "note_id";
                   delete_note client note_id)
  (* Reminders *)
  else if String.eqb name "dex_list_reminders" then
    return_result (list_reminders client
      (get arguments "limit" (VInt 10))
      (get arguments "offset" (VInt 0)))
  else if String.eqb name "dex_create_reminder" then
    (* [is_complete] is not passed: it takes its default [False] *)
    return_result (title ← getitem arguments "title";
                   due_date ← getitem arguments "due_date";
                   create_reminder client title due_date
                     (get arguments "contact_ids" VNone)
                     (get arguments "text" VNone)
                     (VBool false))
  else if String.eqb name "dex_update_reminder" then
    return_result (reminder_id ← getitem arguments "reminder_id";
                   update_reminder client reminder_id
                     (get arguments "title" VNone)
                     (get arguments "text" VNone)
                     (get arguments "due_date" VNone)
                     (get arguments "is_complete" VNone))
  else if String.eqb name "dex_complete_reminder" then
    return_result (reminder_id ← getitem arguments "reminder_id";
                   complete_reminder client reminder_id)
  else if String.eqb name "dex_delete_reminder" then
    return_result (reminder_id ← getitem arguments "reminder_id";
                   delete_reminder client reminder_id)
  else
    mret [{| type := "text"; text := "Unknown tool: " ++ name |}].

(** [get_client()] runs before the [try]; what it raises leaves
    [call_tool]. *)
Definition call_tool (name : string) (arguments : gmap string value)
    : M (list TextContent) :=
  client ← get_client;
  try_except (call_tool_try client name arguments)
    (λ e, mret [{| type := "text"; text := "Error: " ++ str_exn e |}]).

(** The call made by the [dex_create_reminder] branch of [call_tool]. *)
Definition create_reminder_call (client : DexClient)
    (arguments : gmap string value) : M value :=
  title ← getitem arguments "title";
  due_date ← getitem arguments "due_date";
  create_reminder client title due_date
    (get arguments "contact_ids" VNone)
    (get arguments "text" VNone)
    (VBool false).

End Dex.

Arguments State : clear implicits.
Arguments M : clear implicits.

(** ** The tool catalog ([list_tools] of server.py) *)

(** One entry of a schema's ["properties"]: its ["type"], the item type
    of an array, its ["description"] and its ["default"] when declared. *)
Record Property : Type := {
  prop_type : string;
  prop_items : option string;
  prop_description : string;
  prop_default : option value
}.

(** An [inputSchema]: ["type"], ["properties"] in source order, and
    ["required"] when the key is there. *)
Record Schema : Type := {
  schema_type : string;
  properties : list (string * Property);
  required : option (list string)
}.

Record Tool : Type := {
  name : string;
  description : string;
  inputSchema : Schema
}.

Definition list_tools : list Tool :=
  [
    {| name := "dex_list_contacts";
       description := "List all contacts from Dex CRM with pagination. Returns contact details including name, email, phone, job title, and social profiles.";
       inputSchema := {|
         schema_type := "object";
         properties := [
        ("limit",
         {| prop_type := "integer";
            prop_items := None;
            prop_description := "Maximum number of contacts to return (default: 10, max: 100)";
            prop_default := Some (VInt 10) |});
        ("offset",
         {| prop_type := "integer";
            prop_items := None;
            prop_description := "Number of contacts to skip for pagination (default: 0)";
            prop_default := Some (VInt 0) |})];
         required := None |} |};
    {| name := "dex_get_contact";
       description := "Get detailed information about a specific contact by their ID.";
       inputSchema := {|
         schema_type := "object";
         properties := [
        ("contact_id",
         {| prop_type := "string";
            prop_items := None;
            prop_description := "The UUID of the contact to retrieve";
            prop_default := None |})];
         required := Some ["contact_id"] |} |};
    {| name := "dex_search_contacts";
       description := "Search for contacts by email address.";
       inputSchema := {|
         schema_type := "object";
         properties := [
        ("email",
         {| prop_type := "string";
            prop_items := None;
            prop_description := "Email address to search for";
            prop_default := None |})];
         required := Some ["email"] |} |};
    {| name := "dex_create_contact";
       description := "Create a new contact in Dex CRM.";
       inputSchema := {|
         schema_type := "object";
         properties := [
        ("first_name",
         {| prop_type := "string";
            prop_items := None;
            prop_description := "Contact's first name";
            prop_default := None |});
        ("last_name",
         {| prop_type := "string";
            prop_items := None;
            prop_description := "Contact's last name";
            prop_default := None |});
        ("email",
         {| prop_type := "string";
            prop_items := None;
            prop_description := "Contact's email address";
            prop_default := None |});
        ("phone",
         {| prop_type := "string";
            prop_items := None;
            prop_description := "Contact's phone number";
            prop_default := None |});
        ("phone_label",
         {| prop_type := "string";
            prop_items := None;
            prop_description := "Label for phone number (e.g., 'Work', 'Mobile')";
            prop_default := Some (VStr "Work") |});
        ("job_title",
         {| prop_type := "string";
            prop_items := None;
            prop_description := "Contact's job title";
            prop_default := None |});
        ("description",
         {| prop_type := "string";
            prop_items := None;
            prop_description := "Notes about the contact";
            prop_default := None |});
        ("linkedin",
         {| prop_type := "string";
            prop_items := None;
            prop_description := "LinkedIn username";
            prop_default := None |});
        ("twitter",
         {| prop_type := "string";
            prop_items := None;
            prop_description := "Twitter handle";
            prop_default := None |});
        ("instagram",
         {| prop_type := "string";
            prop_items := None;
            prop_description := "Instagram username";
            prop_default := None |});
        ("website",
         {| prop_type := "string";
            prop_items := None;
            prop_description := "Personal website URL";
            prop_default := None |})];
         required := Some ["first_name"; "last_name"] |} |};
    {| name := "dex_update_contact";
       description := "Update an existing contact's information.";
       inputSchema := {|
         schema_type := "object";
         properties := [
        ("contact_id",
         {| prop_type := "string";
            prop_items := None;
            prop_description := "The UUID of the contact to update";
            prop_default := None |});
        ("first_name",
         {| prop_type := "string";
            prop_items := None;
            prop_description := "New first name";
            prop_default := None |});
        ("last_name",
         {| prop_type := "string";
            prop_items := None;
            prop_description := "New last name";
            prop_default := None |});
        ("job_title",
         {| prop_type := "string";
            prop_items := None;
            prop_description := "New job title";
            prop_default := None |});
        ("description",
         {| prop_type := "string";
            prop_items := None;
            prop_description := "New description/notes";
            prop_default := None |});
        ("linkedin",
         {| prop_type := "string";
            prop_items := None;
            prop_description := "New LinkedIn username";
            prop_default := None |});
        ("twitter",
         {| prop_type := "string";
            prop_items := None;
            prop_description := "New Twitter handle";
            prop_default := None |});
        ("instagram",
         {| prop_type := "string";
            prop_items := None;
            prop_description := "New Instagram username";
            prop_default := None |});
        ("website",
         {| prop_type := "string";
            prop_items := None;
            prop_description := "New website URL";
            prop_default := None |})];
         required := Some ["contact_id"] |} |};
    {| name := "dex_delete_contact";
       description := "Delete a contact from Dex CRM.";
       inputSchema := {|
         schema_type := "object";
         properties := [
        ("contact_id",
         {| prop_type := "string";
            prop_items := None;
            prop_description := "The UUID of the contact to delete";
            prop_default := None |})];
         required := Some ["contact_id"] |} |};
    {| name := "dex_list_notes";
       description := "List all notes from Dex CRM with pagination. Notes are timeline items that can be associated with contacts.";
       inputSchema := {|
         schema_type := "object";
         properties := [
        ("limit",
         {| prop_type := "integer";
            prop_items := None;
            prop_description := "Maximum number of notes to return (default: 10)";
            prop_default := Some (VInt 10) |});
        ("offset",
         {| prop_type := "integer";
            prop_items := None;
            prop_description := "Number of notes to skip for pagination (default: 0)";
            prop_default := Some (VInt 0) |})];
         required := None |} |};
    {| name := "dex_get_notes_for_contact";
       description := "Get all notes associated with a specific contact.";
       inputSchema := {|
         schema_type := "object";
         properties := [
        ("contact_id",
         {| prop_type := "string";
            prop_items := None;
            prop_description := "The UUID of the contact to get notes for";
            prop_default := None |})];
         required := Some ["contact_id"] |} |};
    {| name := "dex_create_note";
       description := "Create a new note and associate it with one or more contacts.";
       inputSchema := {|
         schema_type := "object";
         properties := [
        ("note",
         {| prop_type := "string";
            prop_items := None;
            prop_description := "The note content";
            prop_default := None |});
        ("contact_ids",
         {| prop_type := "array";
            prop_items := Some "string";
            prop_description := "List of contact UUIDs to associate with this note";
            prop_default := None |});
        ("event_time",
         {| prop_type := "string";
            prop_items := None;
            prop_description := "ISO 8601 timestamp for the note (defaults to now)";
            prop_default := None |})];
         required := Some ["note"; "contact_ids"] |} |};
    {| name := "dex_update_note";
       description := "Update the content of an existing note.";
       inputSchema := {|
         schema_type := "object";
         properties := [
        ("note_id",
         {| prop_type := "string";
            prop_items := None;
            prop_description := "The UUID of the note to update";
            prop_default := None |});
        ("note",
         {| prop_type := "string";
            prop_items := None;
            prop_description := "New note content";
            prop_default := None |})];
         required := Some ["note_id"; "note"] |} |};
    {| name := "dex_delete_note";
       description := "Delete a note from Dex CRM.";
       inputSchema := {|
         schema_type := "object";
         properties := [
        ("note_id",
         {| prop_type := "string";
            prop_items := None;
            prop_description := "The UUID of the note to delete";
            prop_default := None |})];
         required := Some ["note_id"] |} |};
    {| name := "dex_list_reminders";
       description := "List all reminders from Dex CRM with pagination. Reminders can be associated with contacts and have due dates.";
       inputSchema := {|
         schema_type := "object";
         properties := [
        ("limit",
         {| prop_type := "integer";
            prop_items := None;
            prop_description := "Maximum number of reminders to return (default: 10)";
            prop_default := Some (VInt 10) |});
        ("offset",
         {| prop_type := "integer";
            prop_items := None;
            prop_description := "Number of reminders to skip for pagination (default: 0)";
            prop_default := Some (VInt 0) |})];
         required := None |} |};
    {| name := "dex_create_reminder";
       description := "Create a new reminder, optionally associated with contacts.";
       inputSchema := {|
         schema_type := "object";
         properties := [
        ("title",
         {| prop_type := "string";
            prop_items := None;
            prop_description := "Reminder title";
            prop_default := None |});
        ("due_date",
         {| prop_type := "string";
            prop_items := None;
            prop_description := "Due date in YYYY-MM-DD format";
            prop_default := None |});
        ("contact_ids",
         {| prop_type := "array";
            prop_items := Some "string";
            prop_description := "List of contact UUIDs to associate with this reminder";
            prop_default := None |});
        ("text",
         {| prop_type := "string";
            prop_items := None;
            prop_description := "Additional reminder details";
            prop_default := None |})];
         required := Some ["title"; "due_date"] |} |};
    {| name := "dex_update_reminder";
       description := "Update an existing reminder.";
       inputSchema := {|
         schema_type := "object";
         properties := [
        ("reminder_id",
         {| prop_type := "string";
            prop_items := None;
            prop_description := "The UUID of the reminder to update";
            prop_default := None |});
        ("title",
         {| prop_type := "string";
            prop_items := None;
            prop_description := "New title";
            prop_default := None |});
        ("text",
         {| prop_type := "string";
            prop_items := None;
            prop_description := "New description text";
            prop_default := None |});
        ("due_date",
         {| prop_type := "string";
            prop_items := None;
            prop_description := "New due date in YYYY-MM-DD format";
            prop_default := None |});
        ("is_complete",
         {| prop_type := "boolean";
            prop_items := None;
            prop_description := "Mark as complete or incomplete";
            prop_default := None |})];
         required := Some ["reminder_id"] |} |};
    {| name := "dex_complete_reminder";
       description := "Mark a reminder as complete.";
       inputSchema := {|
         schema_type := "object";
         properties := [
        ("reminder_id",
         {| prop_type := "string";
            prop_items := None;
            prop_description := "The UUID of the reminder to complete";
            prop_default := None |})];
         required := Some ["reminder_id"] |} |};
    {| name := "dex_delete_reminder";
       description := "Delete a reminder from Dex CRM.";
       inputSchema := {|
         schema_type := "object";
         properties := [
        ("reminder_id",
         {| prop_type := "string";
            prop_items := None;
            prop_description := "The UUID of the reminder to delete";
            prop_default := None |})];
         required := Some ["reminder_id"] |} |}
  ].

(** ** The signatures of the client's operations (client.py) *)

(** Parameter annotations: [str], [int], [bool], [list[str]], [Any] and
    [T | None]. *)
Inductive annotation : Type :=
  | TStr
  | TInt
  | TBool
  | TListStr
  | TAny
  | TOptional (t : annotation).

Record Param : Type := {
  param_name : string;
  param_type : annotation;
  param_default : option value     (* [None]: the parameter is required *)
}.

(** A method's parameters after [self], and its [**name] parameter if any. *)
Record Signature : Type := {
  params : list Param;
  var_keyword : option string
}.

(** The resource sections of client.py. *)
Inductive resource : Type := Contacts | Notes | Reminders.

Definition required_param (n : string) (t : annotation) : Param :=
  {| param_name := n; param_type := t; param_default := None |}.

Definition optional_param (n : string) (t : annotation) (d : value) : Param :=
  {| param_name := n; param_type := t; param_default := Some d |}.

Definition pagination : Signature :=
  {| params := [optional_param "limit" TInt (VInt 10);
                optional_param "offset" TInt (VInt 0)];
     var_keyword := None |}.

Definition by_id (id_name : string) : Signature :=
  {| params := [required_param id_name TStr]; var_keyword := None |}.

(** The public coroutines of [DexClient] that issue a CRM request, in
    source order, each with its section and its [def] line. *)
Definition client_operations : list (string * (resource * Signature)) :=
  [ ("list_contacts", (Contacts, pagination));
    ("get_contact", (Contacts, by_id "contact_id"));
    ("search_contacts_by_email", (Contacts, by_id "email"));
    ("create_contact", (Contacts,
       {| params := [required_param "first_name" TStr;
                     required_param "last_name" TStr;
                     optional_param "email" (TOptional TStr) VNone;
                     optional_param "phone" (TOptional TStr) VNone;
                     optional_param "phone_label" TStr (VStr "Work");
                     optional_param "job_title" (TOptional TStr) VNone;
                     optional_param "description" (TOptional TStr) VNone;
                     optional_param "linkedin" (TOptional TStr) VNone;
                     optional_param "twitter" (TOptional TStr) VNone;
                     optional_param "instagram" (TOptional TStr) VNone;
                     optional_param "website" (TOptional TStr) VNone];
          var_keyword := None |}));
    ("update_contact", (Contacts,
       {| params := [required_param "contact_id" TStr];
          var_keyword := Some "fields" |}));
    ("delete_contact", (Contacts, by_id "contact_id"));
    ("list_notes", (Notes, pagination));
    ("get_notes_for_contact", (Notes, by_id "contact_id"));
    ("create_note", (Notes,
       {| params := [required_param "note" TStr;
                     required_param "contact_ids" TListStr;
                     optional_param "event_time" (TOptional TStr) VNone];
          var_keyword := None |}));
    ("update_note", (Notes,
       {| params := [required_param "note_id" TStr;
                     required_param "note" TStr];
          var_keyword := None |}));
    ("delete_note", (Notes, by_id "note_id"));
    ("list_reminders", (Reminders, pagination));
    ("create_reminder", (Reminders,
       {| params := [required_param "title" TStr;
                     required_param "due_date" TStr;
                     optional_param "contact_ids" (TOptional TListStr) VNone;
                     optional_param "text" (TOptional TStr) VNone;
                     optional_param "is_complete" TBool (VBool false)];
          var_keyword := None |}));
    ("update_reminder", (Reminders,
       {| params := [required_param "reminder_id" TStr;
                     optional_param "title" (TOptional TStr) VNone;
                     optional_param "text" (TOptional TStr) VNone;
                     optional_param "due_date" (TOptional TStr) VNone;
                     optional_param "is_complete" (TOptional TBool) VNone];
          var_keyword := None |}));
    ("delete_reminder", (Reminders, by_id "reminder_id"));
    ("complete_reminder", (Reminders, by_id "reminder_id")) ].

(** The client method each branch of [call_tool] calls. *)
Definition dispatch_target (tool : string) : option string :=
  if String.eqb tool "dex_list_contacts" then Some "list_contacts"
  else if String.eqb tool "dex_get_contact" then Some "get_contact"
  else if String.eqb tool "dex_search_contacts" then Some "search_contacts_by_email"
  else if String.eqb tool "dex_create_contact" then Some "create_contact"
  else if String.eqb tool "dex_update_contact" then Some "update_contact"
  else if String.eqb tool "dex_delete_contact" then Some "delete_contact"
  else if String.eqb tool "dex_list_notes" then Some "list_notes"
  else if String.eqb tool "dex_get_notes_for_contact" then Some "get_notes_for_contact"
  else if String.eqb tool "dex_create_note" then Some "create_note"
  else if String.eqb tool "dex_update_note" then Some "update_note"
  else if String.eqb tool "dex_delete_note" then Some "delete_note"
  else if String.eqb tool "dex_list_reminders" then Some "list_reminders"
  else if String.eqb tool "dex_create_reminder" then Some "create_reminder"
  else if String.eqb tool "dex_update_reminder" then Some "update_reminder"
  else if String.eqb tool "dex_complete_reminder" then Some "complete_reminder"
  else if String.eqb tool "dex_delete_reminder" then Some "delete_reminder"
  else None.

Fixpoint assoc {A} (k : string) (l : list (string * A)) : option A :=
  match l with
  | [] => None
  | (k', a) :: l => if String.eqb k k' then Some a else assoc k l
  end.

(** The client operation behind a catalog entry. *)
Definition operation_of (t : Tool) : option (resource * Signature) :=
  match dispatch_target (name t) with
  | Some method => assoc method client_operations
  | None => None
  end.

(** *** What it means for a schema to mirror a signature *)

(** The JSON-schema type (and array item type) that stands for an
    annotation; [T | None] is declared as [T]. *)
Fixpoint schema_type_of (t : annotation) : option (string * option string) :=
  match t with
  | TStr => Some ("string", None)
  | TInt => Some ("integer", None)
  | TBool => Some ("boolean", None)
  | TListStr => Some ("array", Some "string")
  | TAny => None
  | TOptional t => schema_type_of t
  end.

Definition option_string_eqb (a b : option string) : bool :=
  match a, b with
  | Some x, Some y => String.eqb x y
  | None, None => true
  | _, _ => false
  end.

(** Equality of the scalar values that occur as defaults. *)
Definition scalar_eqb (a b : value) : bool :=
  match a, b with
  | VNone, VNone => true
  | VBool x, VBool y => Bool.eqb x y
  | VInt x, VInt y => x =? y
  | VStr x, VStr y => String.eqb x y
  | _, _ => false
  end.

(** The property declares the parameter's type. *)
Definition type_mirrored (p : Param) (q : Property) : bool :=
  match schema_type_of (param_type p) with
  | Some (ty, items) =>
      String.eqb (prop_type q) ty && option_string_eqb (prop_items q) items
  | None => true
  end.

(** The property declares the parameter's default; a default of [None]
    (the parameter may be left out) needs no declaration. *)
Definition default_mirrored (p : Param) (q : Property) : bool :=
  match param_default p, prop_default q with
  | None, None => true
  | Some VNone, None => true
  | Some d, Some d' => scalar_eqb d d'
  | _, _ => false
  end.

(** A declared parameter is mirrored when the schema has a property of
    its name with its type and default. *)
Definition param_mirrored (s : Schema) (p : Param) : bool :=
  match assoc (param_name p) (properties s) with
  | Some q => type_mirrored p q && default_mirrored p q
  | None => false
  end.

(** A property is accounted for when it is a declared parameter, or the
    method collects extra keywords. *)
Definition property_accounted (sg : Signature) (n : string) : bool :=
  existsb (λ p, String.eqb (param_name p) n) (params sg)
  || match var_keyword sg with Some _ => true | None => false end.

Definition list_string_eqb (a b : list string) : bool :=
  bool_decide (a = b).

(** The names the client requires: parameters without a default. *)
Definition required_names (sg : Signature) : list string :=
  param_name <$> List.filter (λ p, match param_default p with
                                   | None => true
                                   | Some _ => false
                                   end) (params sg).

Definition declared_required (s : Schema) : list string :=
  match required s with Some l => l | None => [] end.

(** The schema mirrors the signature: every parameter has its property,
    every property its parameter, and the required markers are exactly
    the required parameters. *)
Definition mirrors (s : Schema) (sg : Signature) : bool :=
  forallb (param_mirrored s) (params sg)
  && forallb (property_accounted sg) ((properties s).*1)
  && list_string_eqb (declared_required s) (required_names sg).

(** The tools of the catalog whose client operation is in a section. *)
Definition resource_eqb (a b : resource) : bool :=
  match a, b with
  | Contacts, Contacts | Notes, Notes | Reminders, Reminders => true
  | _, _ => false
  end.

Definition tools_of (r : resource) : list Tool :=
  List.filter (λ t, match operation_of t with
                    | Some (r', _) => resource_eqb r r'
                    | None => false
                    end) list_tools.

(** ** A scripted host *)

(** A byte below 128: an ASCII character. *)
Definition is_ascii_byte (c : ascii) : bool :=
  match c with Ascii _ _ _ _ _ _ _ high => negb high end.

Definition is_ascii_string (s : string) : bool :=
  forallb is_ascii_byte (list_ascii_of_string s).

(** A continuation byte of UTF-8: [10xxxxxx]. *)
Definition is_continuation_byte (c : ascii) : bool :=
  match c with Ascii _ _ _ _ _ _ b6 b7 => b7 && negb b6 end.

(** The characters of a UTF-8 string: each lead byte with the
    continuation bytes that follow it. *)
Fixpoint utf8_characters (s : string) : list string :=
  match s with
  | EmptyString => []
  | String c s =>
      match utf8_characters s with
      | [] => [String c EmptyString]
      | next :: rest =>
          match next with
          | String c' _ =>
              if is_continuation_byte c'
              then String c next :: rest
              else String c EmptyString :: next :: rest
          | EmptyString => String c EmptyString :: rest
          end
      end
  end.

(** A host for concrete runs: the world is the list of answers the HTTP
    stack will give, in order (none left: the connection fails); the clock
    is stopped; bodies are printed as the empty object; building the HTTP
    client fails on a header value that is not ASCII; strings are UTF-8
    and dicts are iterated in key order. *)
Definition ok_response (body : value) : Response :=
  {| raise_for_status := None; resp_json := Return body |}.

Definition status_error (msg : string) : Response :=
  {| raise_for_status := Some (OtherError "HTTPStatusError" msg);
     resp_json := Return VNone |}.

#[global] Instance scripted_host : Host (list (res Response)) := {|
  http_request _ _ w :=
    match w with
    | [] => (Raise (OtherError "ConnectError" "All connection attempts failed"), [])
    | r :: w => (r, w)
    end;
  utcnow_isoformat w := ("2024-06-01T12:00:00+00:00", w);
  json_dumps _ := "{}";
  format_other _ := "";
  async_client_error _ headers _ :=
    if forallb (λ h, is_ascii_string h.2) headers then None
    else Some (OtherError "UnicodeEncodeError"
                 "'ascii' codec can't encode character: ordinal not in range(128)");
  code_points := utf8_characters;
  key_order d := (map_to_list d).*1
|}.

(** A process whose client exists, about to receive [answers]. *)
Definition running (key : string) (answers : list (res Response))
    : State (list (res Response)) :=
  {| _client := Some (dex_client key); environ := ∅;
     world := answers; wire := [] |}.

(** A fresh process with the given environment. *)
Definition fresh (env : gmap string string) (answers : list (res Response))
    : State (list (res Response)) :=
  {| _client := None; environ := env; world := answers; wire := [] |}.

(** ** Reading a request *)

(** The object sent under the top-level key [outer] of the JSON body. *)
Definition body_object (req : Request) (outer : string) : option (gmap string value) :=
  match req_json req with
  | Some body =>
      match body !! outer with
      | Some (VDict d) => Some d
      | _ => None
      end
  | None => None
  end.



(** The timestamp [create_note] sends: the one given, or the clock's. *)
Definition effective_event_time `{Host World} (event_time : value) (w : World)
    : value :=
  if is_none event_time then VStr (utcnow_isoformat w).1 else event_time.

(** [[{"contact_id": cid} for cid in ids]] for a list [ids]. *)
Definition contact_entries (ids : list value) : value :=
  VList ((λ cid, VDict {["contact_id" := cid]}) <$> ids).

(** [get_client] has a client to return: the global is set, or the
    environment holds a non-empty [DEX_API_KEY] from which
    [DexClient(api_key)] builds a client without raising. *)
Definition client_available `{Host World} (st : State World) : Prop :=
  is_Some (_client st)
  ∨ ∃ key client,
      environ st !! "DEX_API_KEY" = Some key
      ∧ key ≠ ""
      ∧ DexClient__init__ key = Return client.

(** The requests a computation adds to the wire when run from [st]. *)
Definition sent_by {World A} (m : M World A) (st : State World) : list Request :=
  drop (length (wire st)) (wire (m st).2).

(** The message of the [ValueError] of [get_client]. *)
Definition missing_key_message : string :=
  "DEX_API_KEY environment variable is required. " ++
  "Get your API key from https://getdex.com/appv3/settings/api".

(** Every catalog entry has a client operation whose signature its
    schema mirrors, except possibly the entry called [but]. *)
Definition catalog_mirrors_client (but : option string) : bool :=
  forallb (λ t,
    match operation_of t with
    | Some (_, sg) =>
        match but with
        | Some n => String.eqb (name t) n
        | None => false
        end
        || mirrors (inputSchema t) sg
    | None => false
    end) list_tools.

(** A signature without one of its parameters. *)
Definition without_param (n : string) (sg : Signature) : Signature :=
  {| params := List.filter (λ p, negb (String.eqb (param_name p) n)) (params sg);
     var_keyword := var_keyword sg |}.

(** ** Effects of a computation on the process state *)

(** [m] sends nothing and leaves the client and the environment alone. *)
Definition quiet {World A} (m : M World A) : Prop :=
  ∀ st, _client (m st).2 = _client st
        ∧ environ (m st).2 = environ st
        ∧ wire (m st).2 = wire st.

(** [m] leaves the client and the environment alone and sends nothing or
    one request, which satisfies [P]. *)
Definition sends {World A} (P : Request → Prop) (m : M World A) : Prop :=
  ∀ st, _client (m st).2 = _client st
        ∧ environ (m st).2 = environ st
        ∧ (wire (m st).2 = wire st
           ∨ ∃ req, P req ∧ wire (m st).2 = (wire st ++ [req])%list).

(** ** Shapes of requests *)

(** The tools whose branch of [call_tool] calls a [list_], [get_] or
    [search_] method. *)
Definition read_only_tools : list string :=
  ["dex_list_contacts"; "dex_get_contact"; "dex_search_contacts";
   "dex_list_notes"; "dex_get_notes_for_contact"; "dex_list_reminders"].

(** A request with a JSON body is a POST or a PUT without query
    parameters; one without a body is a GET or a DELETE. *)
Definition well_shaped (req : Request) : bool :=
  match req_json req with
  | Some _ =>
      (String.eqb (req_method req) "POST" || String.eqb (req_method req) "PUT")
      && match req_params req with None => true | Some _ => false end
  | None =>
      String.eqb (req_method req) "GET" || String.eqb (req_method req) "DELETE"
  end.

(** A read-only tool's request is a GET. *)
Definition reads_only (tool : string) (req : Request) : bool :=
  if existsb (String.eqb tool) read_only_tools
  then String.eqb (req_method req) "GET"
  else true.

Definition request_ok (tool : string) (req : Request) : bool :=
  well_shaped req && reads_only tool req.

(** ** Arguments and the catalog *)

(** The required names of a schema that the mapping lacks, in schema order. *)
Definition missing_required (s : Schema) (arguments : gmap string value)
    : list string :=
  List.filter (λ k, match arguments !! k with
                    | None => true
                    | Some _ => false
                    end) (declared_required s).

(** The tools of [call_tool] that read pagination arguments, with the path
    their client method requests. *)
Definition list_endpoints : list (string * string) :=
  [("dex_list_contacts", "/contacts");
   ("dex_list_notes", "/timeline_items");
   ("dex_list_reminders", "/reminders")].

(** The arguments [call_tool] reads with [arguments.get(key)], whose
    default is [None], tool by tool. *)
Definition none_default_arguments : list (string * string) :=
  [("dex_create_contact", "email"); ("dex_create_contact", "phone");
   ("dex_create_contact", "job_title"); ("dex_create_contact", "description");
   ("dex_create_contact", "linkedin"); ("dex_create_contact", "twitter");
   ("dex_create_contact", "instagram"); ("dex_create_contact", "website");
   ("dex_create_note", "event_time");
   ("dex_create_reminder", "contact_ids"); ("dex_create_reminder", "text");
   ("dex_update_reminder", "title"); ("dex_update_reminder", "text");
   ("dex_update_reminder", "due_date"); ("dex_update_reminder", "is_complete")].

(** The tools whose client call can fail before the request is made: the
    keyword collision of [**arguments] and the comprehensions over
    [contact_ids]. *)
Definition guarded_tools : list string :=
  ["dex_update_contact"; "dex_create_note"; "dex_create_reminder"].

(** The state with another environment. *)
Definition with_environ {World} (env : gmap string string) (st : State World)
    : State World :=
  {| _client := _client st; environ := env; world := world st; wire := wire st |}.

(** Tool calls served one after the other: the results, in order, and the
    final state. *)
Fixpoint serve `{Host World} (calls : list (string * gmap string value))
    (st : State World) : list (res (list TextContent)) * State World :=
  match calls with
  | [] => ([], st)
  | (tool, arguments) :: calls =>
      let '(r, st1) := call_tool tool arguments st in
      let '(rs, st2) := serve calls st1 in
      (r :: rs, st2)
  end.

(** A result that is exactly one content item of type ["text"]. *)
Definition one_text (r : res (list TextContent)) : Prop :=
  ∃ t, r = Return [{| type := "text"; text := t |}].

(** In world [w] every request fails with [e]: the HTTP stack raises it
    (connection failure, timeout), or it answers and [raise_for_status]
    raises it (error status). *)
Definition http_fails_with `{Host World} (e : exn) (w : World) : Prop :=
  ∀ http req,
    match http_request http req w with
    | (Raise e', _) => e' = e
    | (Return response, _) => raise_for_status response = Some e
    end.

(** In world [w] every request is answered with a success status and a
    body that decodes to [body]. *)
Definition http_answers `{Host World} (body : value) (w : World) : Prop :=
  ∀ http req,
    ∃ response w',
      http_request http req w = (Return response, w')
      ∧ raise_for_status response = None
      ∧ resp_json response = Return body.

(** * Properties *)

Section ClientFacts.

Context `{Host World}.

Implicit Types (self : DexClient) (st : State World) (v : value).

(** [_request] hands exactly its arguments to the HTTP stack, once, and
    leaves the client and the environment alone. *)
Lemma _request_wire self method path params json st :
  wire (_request self method path params json st).2
  = (wire st ++ [{| req_method := method; req_path := path;
                    req_params := params; req_json := json |}])%list.
Proof.
  unfold _request.
  destruct (http_request _ _ _) as [[e|response] w]; simpl; [done|].
  by destruct (raise_for_status response).
Qed.

(** ** create_contact *)

Lemma truthy_VStr (s : string) : s ≠ "" → truthy (VStr s) = true.
Proof. intros Hs. simpl. by apply negb_true_iff, String.eqb_neq. Qed.

(** C9, as the code has it.  [create_contact] called with only
    [first_name], [last_name] and a non-empty [email] posts to [/contacts] a body whose ["contact"]
    object holds the two names, the six unspecified scalar fields
    [job_title], [description], [linkedin], [twitter], [instagram] and
    [website] with value null, the email nested as
    [contact_emails: {data: {email}}], and no [contact_phone_numbers] key. *)
Theorem create_contact_name_email_body self (first_name last_name email : string) st :
  email ≠ "" →
  ∃ contact,
    wire (create_contact self (VStr first_name) (VStr last_name) (VStr email)
            VNone (VStr "Work") VNone VNone VNone VNone VNone VNone st).2
    = (wire st ++ [{| req_method := "POST"; req_path := "/contacts";
                      req_params := None;
                      req_json := Some {["contact" := VDict contact]} |}])%list
    ∧ contact = dict [
        ("first_name", VStr first_name);
        ("last_name", VStr last_name);
        ("job_title", VNone);
        ("description", VNone);
        ("linkedin", VNone);
        ("twitter", VNone);
        ("instagram", VNone);
        ("website", VNone);
        ("contact_emails", VDict {["data" := VDict {["email" := VStr email]}]})]
    ∧ contact !! "contact_phone_numbers" = None.
Proof.
  intros Hemail. eexists. split; [|split].
  - unfold create_contact. rewrite _request_wire. reflexivity.
  - unfold create_contact_data. rewrite (truthy_VStr email Hemail). reflexivity.
  - unfold create_contact_data. rewrite (truthy_VStr email Hemail). reflexivity.
Qed.

(** ** update_contact, update_reminder *)




(** C5. [complete_reminder(reminder_id)] and
    [update_reminder(reminder_id, is_complete=True)] are the same
    computation: from every state they return the same result and leave
    the same state, having sent the one request
    [PUT /reminders/{reminder_id}] with body
    [{"reminder": {"is_complete": true}}]; the tools
    [dex_complete_reminder] and [dex_update_reminder] with
    [is_complete = true] have the same outcome as well. *)
Theorem complete_reminder_is_update self (reminder_id : value) st :
  complete_reminder self reminder_id st
  = update_reminder self reminder_id VNone VNone VNone (VBool true) st
  ∧ wire (complete_reminder self reminder_id st).2
    = (wire st ++ [{| req_method := "PUT";
                      req_path := "/reminders/" ++ format_value reminder_id;
                      req_params := None;
                      req_json := Some {["reminder" :=
                                    VDict {["is_complete" := VBool true]}]} |}])%list
  ∧ call_tool "dex_complete_reminder" {["reminder_id" := reminder_id]} st
    = call_tool "dex_update_reminder"
        (<["is_complete" := VBool true]> {["reminder_id" := reminder_id]}) st.
Proof.
  split; [reflexivity|]. split.
  - unfold complete_reminder, update_reminder. by rewrite _request_wire.
  - reflexivity.
Qed.

(** ** create_note, create_reminder *)

(** With a list of contact IDs, [create_note] sends one request:
    [POST /timeline_items] with the [timeline_event] built from the
    note, the effective timestamp and one entry per ID. *)
Lemma create_note_wire self note (ids : list value) event_time st :
  wire (create_note self note (VList ids) event_time st).2
  = (wire st ++ [{|
       req_method := "POST"; req_path := "/timeline_items";
       req_params := None;
       req_json := Some {["timeline_event" :=
         VDict (timeline_event note
                  (effective_event_time event_time (world st))
                  (contact_entries ids))]} |}])%list.
Proof.
  unfold create_note, effective_event_time, mbind, M_bind, lift, mret, M_ret.
  destruct (is_none event_time); simpl.
  - destruct (utcnow_isoformat (world st)) as [now w]; simpl.
    by rewrite _request_wire.
  - by rewrite _request_wire.
Qed.

Lemma create_reminder_wire self title due_date contact_ids text is_complete
    reminder st :
  create_reminder_data title due_date contact_ids text is_complete
  = Return reminder →
  wire (create_reminder self title due_date contact_ids text is_complete st).2
  = (wire st ++ [{|
       req_method := "POST"; req_path := "/reminders"; req_params := None;
       req_json := Some {["reminder" := VDict reminder]} |}])%list.
Proof.
  intros Hdata. unfold create_reminder, mbind, M_bind, lift.
  rewrite Hdata. by rewrite _request_wire.
Qed.

(** C2, as the code has it.  The request of a create operation always
    carries the optional scalar fields, with the supplied value or with
    the default of an omitted one ([job_title], [description], [linkedin],
    [twitter], [instagram], [website] and [text]: null; [is_complete]: the
    value passed; [event_time]: the value passed, the current time when
    omitted).  It carries the nested fields exactly when the supplied
    value is truthy: [contact_emails] for [email], [contact_phone_numbers]
    for [phone], [reminders_contacts] for a list [contact_ids]; omitted
    (null), the empty string and the empty list are falsy and leave the
    key out. *)
Theorem create_optional_fields self st :
  (∀ fn ln em ph pl jt de li tw ig we,
     ∃ contact,
       wire (create_contact self fn ln em ph pl jt de li tw ig we st).2
       = (wire st ++ [{|
            req_method := "POST"; req_path := "/contacts"; req_params := None;
            req_json := Some {["contact" := VDict contact]} |}])%list
       ∧ contact !! "first_name" = Some fn
       ∧ contact !! "last_name" = Some ln
       ∧ contact !! "job_title" = Some jt
       ∧ contact !! "description" = Some de
       ∧ contact !! "linkedin" = Some li
       ∧ contact !! "twitter" = Some tw
       ∧ contact !! "instagram" = Some ig
       ∧ contact !! "website" = Some we
       ∧ contact !! "contact_emails"
         = (if truthy em
            then Some (VDict {["data" := VDict {["email" := em]}]})
            else None)
       ∧ contact !! "contact_phone_numbers"
         = (if truthy ph
            then Some (VDict {["data" := VDict (dict [("phone_number", ph);
                                                      ("label", pl)])]})
            else None))
  ∧ (∀ title due_date text is_complete (ids : list value),
       ∃ reminder,
         wire (create_reminder self title due_date (VList ids) text
                 is_complete st).2
         = (wire st ++ [{|
              req_method := "POST"; req_path := "/reminders";
              req_params := None;
              req_json := Some {["reminder" := VDict reminder]} |}])%list
         ∧ reminder !! "title" = Some title
         ∧ reminder !! "due_at_date" = Some due_date
         ∧ reminder !! "text" = Some text
         ∧ reminder !! "is_complete" = Some is_complete
         ∧ reminder !! "reminders_contacts"
           = match ids with
             | [] => None
             | _ => Some (VDict {["data" :=
                        VList ((λ cid, VDict {["contact_id" := cid]}) <$> ids)]})
             end)
  ∧ (∀ title due_date text is_complete,
       ∃ reminder,
         wire (create_reminder self title due_date VNone text
                 is_complete st).2
         = (wire st ++ [{|
              req_method := "POST"; req_path := "/reminders";
              req_params := None;
              req_json := Some {["reminder" := VDict reminder]} |}])%list
         ∧ reminder !! "title" = Some title
         ∧ reminder !! "due_at_date" = Some due_date
         ∧ reminder !! "text" = Some text
         ∧ reminder !! "is_complete" = Some is_complete
         ∧ reminder !! "reminders_contacts" = None)
  ∧ (∀ note (ids : list value) event_time,
       ∃ event,
         wire (create_note self note (VList ids) event_time st).2
         = (wire st ++ [{|
              req_method := "POST"; req_path := "/timeline_items";
              req_params := None;
              req_json := Some {["timeline_event" := VDict event]} |}])%list
         ∧ event !! "note" = Some note
         ∧ event !! "event_time"
           = Some (match event_time with
                   | VNone => VStr (utcnow_isoformat (world st)).1
                   | supplied => supplied
                   end))
  ∧ truthy VNone = false
  ∧ truthy (VStr "") = false
  ∧ truthy (VList []) = false.
Proof.
  split; [|split; [|split; [|split]]].
  - intros. eexists. split.
    + unfold create_contact. rewrite _request_wire. reflexivity.
    + unfold create_contact_data.
      destruct (truthy em), (truthy ph); repeat split; reflexivity.
  - intros. destruct ids as [|cid ids].
    + eexists. split; [by apply create_reminder_wire|].
      repeat split; reflexivity.
    + eexists. split; [by apply create_reminder_wire|].
      repeat split; reflexivity.
  - intros. eexists. split; [by apply create_reminder_wire|].
    repeat split; reflexivity.
  - intros. eexists. split; [apply create_note_wire|].
    split; [reflexivity|]. unfold effective_event_time.
    by destruct event_time.
  - repeat split; reflexivity.
Qed.

(** C6. Empty association lists are handled asymmetrically.
    [create_reminder] with [contact_ids] the empty list, or omitted,
    sends a ["reminder"] object without a [reminders_contacts] key.
    [create_note] always sends a ["timeline_event"] object with a
    [timeline_items_contacts] key, whose [data] list has one
    [{contact_id}] entry per supplied ID: the empty list for no ID. *)
Theorem empty_contact_ids_asymmetry self st :
  (∀ title due_date text is_complete,
     ∃ reminder,
       wire (create_reminder self title due_date (VList []) text
               is_complete st).2
       = (wire st ++ [{|
            req_method := "POST"; req_path := "/reminders";
            req_params := None;
            req_json := Some {["reminder" := VDict reminder]} |}])%list
       ∧ reminder !! "reminders_contacts" = None)
  ∧ (∀ title due_date text is_complete,
       ∃ reminder,
         wire (create_reminder self title due_date VNone text
                 is_complete st).2
         = (wire st ++ [{|
              req_method := "POST"; req_path := "/reminders";
              req_params := None;
              req_json := Some {["reminder" := VDict reminder]} |}])%list
         ∧ reminder !! "reminders_contacts" = None)
  ∧ (∀ note (ids : list value) event_time,
       ∃ event,
         wire (create_note self note (VList ids) event_time st).2
         = (wire st ++ [{|
              req_method := "POST"; req_path := "/timeline_items";
              req_params := None;
              req_json := Some {["timeline_event" := VDict event]} |}])%list
         ∧ event !! "timeline_items_contacts"
           = Some (VDict {["data" :=
               VList ((λ cid, VDict {["contact_id" := cid]}) <$> ids)]}))
  ∧ (∀ note event_time,
       ∃ event,
         wire (create_note self note (VList []) event_time st).2
         = (wire st ++ [{|
              req_method := "POST"; req_path := "/timeline_items";
              req_params := None;
              req_json := Some {["timeline_event" := VDict event]} |}])%list
         ∧ event !! "timeline_items_contacts"
           = Some (VDict {["data" := VList []]})).
Proof.
  split; [|split; [|split]].
  - intros. eexists. split; [by apply create_reminder_wire|reflexivity].
  - intros. eexists. split; [by apply create_reminder_wire|reflexivity].
  - intros. eexists. split; [apply create_note_wire|reflexivity].
  - intros. eexists. split; [apply create_note_wire|reflexivity].
Qed.

(** C7. Every [create_note] call (on a list of contact IDs) sends a
    ["timeline_event"] object whose [meeting_type] is the string
    ["note"]; an [event_time] that is supplied (not null) is sent
    unchanged, and the clock's current time is sent only when
    [event_time] is omitted. *)
Theorem create_note_meeting_type_event_time self note (ids : list value)
    event_time st :
  ∃ event,
    wire (create_note self note (VList ids) event_time st).2
    = (wire st ++ [{|
         req_method := "POST"; req_path := "/timeline_items";
         req_params := None;
         req_json := Some {["timeline_event" := VDict event]} |}])%list
    ∧ event !! "meeting_type" = Some (VStr "note")
    ∧ event !! "event_time"
      = Some (match event_time with
              | VNone => VStr (utcnow_isoformat (world st)).1
              | supplied => supplied
              end).
Proof.
  eexists. split; [apply create_note_wire|]. split; [reflexivity|].
  unfold effective_event_time. by destruct event_time.
Qed.

End ClientFacts.

Section DispatchFacts.

Context `{Host World}.

Implicit Types (client : DexClient) (st : State World)
  (arguments : gmap string value) (tool : string).

Lemma get_client_available st :
  client_available st →
  ∃ client, get_client st
    = (Return client,
       {| _client := Some client; environ := environ st;
          world := world st; wire := wire st |}).
Proof.
  unfold get_client. intros [[c Hc] | (key & client & Hkey & Hne & Hinit)].
  - rewrite Hc. exists c. destruct st; simpl in *. by rewrite Hc.
  - destruct (_client st) as [c|] eqn:Hc.
    + exists c. destruct st; simpl in *. by rewrite Hc.
    + rewrite Hkey. apply String.eqb_neq in Hne. rewrite Hne. simpl.
      rewrite Hinit. eauto.
Qed.

Lemma get_client_raises st e st1 :
  get_client st = (Raise e, st1) → st1 = st ∧ _client st = None.
Proof.
  unfold get_client. destruct (_client st) as [c|]; [done|].
  destruct (environ st !! "DEX_API_KEY") as [key|]; [|by intros [= _ <-]].
  destruct (negb (String.eqb key "")); [|by intros [= _ <-]].
  destruct (DexClient__init__ key) as [e'|c]; [|done]. by intros [= _ <-].
Qed.

(** Each branch of the [try] body ends in [return_result], except the
    final [else]. *)
Lemma call_tool_try_shape client tool arguments :
  (∃ call, call_tool_try client tool arguments = return_result call)
  ∨ call_tool_try client tool arguments
    = mret [{| type := "text"; text := "Unknown tool: " ++ tool |}].
Proof.
  unfold call_tool_try.
  repeat (destruct (String.eqb tool _); [left; eexists; reflexivity|]).
  by right.
Qed.

Lemma return_result_returns (call : M World value) st out st' :
  return_result call st = (Return out, st') →
  ∃ result, call st = (Return result, st')
            ∧ out = [{| type := "text"; text := json_dumps result |}].
Proof.
  unfold return_result, mbind, M_bind, mret, M_ret.
  destruct (call st) as [[e|result] st1]; [done|].
  intros [= <- <-]. eauto.
Qed.

Lemma call_tool_unfold tool arguments st client st1 :
  get_client st = (Return client, st1) →
  call_tool tool arguments st
  = match call_tool_try client tool arguments st1 with
    | (Return out, st2) => (Return out, st2)
    | (Raise e, st2) =>
        (Return [{| type := "text"; text := "Error: " ++ str_exn e |}], st2)
    end.
Proof.
  intros Hget. unfold call_tool, mbind, M_bind, try_except. by rewrite Hget.
Qed.






(** ** dex_create_reminder *)

Lemma get_client_wire st : wire (get_client st).2 = wire st.
Proof.
  unfold get_client. destruct (_client st); [done|].
  destruct (environ st !! "DEX_API_KEY") as [key|]; [|done].
  destruct (negb (String.eqb key "")); [|done].
  by destruct (DexClient__init__ key).
Qed.

Lemma call_tool_wire tool arguments st :
  wire (call_tool tool arguments st).2
  = match get_client st with
    | (Return client, st1) => wire (call_tool_try client tool arguments st1).2
    | (Raise _, _) => wire st
    end.
Proof.
  pose proof (get_client_wire st) as Hw.
  unfold call_tool, mbind, M_bind, try_except.
  destruct (get_client st) as [[e|client] st1]; simpl in *; [done|].
  by destruct (call_tool_try client tool arguments st1) as [[e|out] st2].
Qed.

Lemma return_result_wire (call : M World value) st :
  wire (return_result call st).2 = wire (call st).2.
Proof.
  unfold return_result, mbind, M_bind.
  by destruct (call st) as [[e|result] st1].
Qed.

Lemma create_reminder_data_is_complete title due_date contact_ids text
    is_complete reminder :
  create_reminder_data title due_date contact_ids text is_complete
  = Return reminder →
  reminder !! "is_complete" = Some is_complete.
Proof.
  unfold create_reminder_data. destruct (truthy contact_ids).
  - destruct (contact_refs contact_ids) as [e|contacts]; [done|].
    by intros [= <-].
  - by intros [= <-].
Qed.

Lemma call_tool_try_create_reminder client arguments :
  call_tool_try client "dex_create_reminder" arguments
  = return_result (create_reminder_call client arguments).
Proof. reflexivity. Qed.

Lemma create_reminder_call_sent client arguments st :
  wire (create_reminder_call client arguments st).2 = wire st
  ∨ ∃ reminder,
      reminder !! "is_complete" = Some (VBool false)
      ∧ wire (create_reminder_call client arguments st).2
        = (wire st ++ [{|
             req_method := "POST"; req_path := "/reminders";
             req_params := None;
             req_json := Some {["reminder" := VDict reminder]} |}])%list.
Proof.
  unfold create_reminder_call, getitem, mbind, M_bind, raise, mret, M_ret.
  destruct (arguments !! "title") as [title|]; [|by left].
  destruct (arguments !! "due_date") as [due_date|]; [|by left].
  destruct (create_reminder_data title due_date
              (get arguments "contact_ids" VNone)
              (get arguments "text" VNone) (VBool false))
    as [e|reminder] eqn:Hdata.
  - left. unfold create_reminder, mbind, M_bind, lift. by rewrite Hdata.
  - right. exists reminder. split.
    + by eapply create_reminder_data_is_complete.
    + by apply create_reminder_wire.
Qed.

(** C10. The [dex_create_reminder] tool drops [is_complete]: a call
    whose arguments carry any [is_complete] value has the outcome (result
    and state) of the call without it, and every request a
    [dex_create_reminder] call sends has a ["reminder"] object whose
    [is_complete] is [false]. *)
Theorem create_reminder_tool_drops_is_complete arguments (v : value) st :
  call_tool "dex_create_reminder" (<["is_complete" := v]> arguments) st
  = call_tool "dex_create_reminder" (delete "is_complete" arguments) st
  ∧ Forall (λ req, ∃ reminder,
              body_object req "reminder" = Some reminder
              ∧ reminder !! "is_complete" = Some (VBool false))
      (sent_by (call_tool "dex_create_reminder"
                  (<["is_complete" := v]> arguments)) st)
  ∧ Forall (λ req, ∃ reminder,
              body_object req "reminder" = Some reminder
              ∧ reminder !! "is_complete" = Some (VBool false))
      (sent_by (call_tool "dex_create_reminder" arguments) st).
Proof.
  assert (Hsent : ∀ args,
    Forall (λ req, ∃ reminder,
              body_object req "reminder" = Some reminder
              ∧ reminder !! "is_complete" = Some (VBool false))
      (sent_by (call_tool "dex_create_reminder" args) st)).
  { intros args. unfold sent_by. rewrite call_tool_wire.
    pose proof (get_client_wire st) as Hw.
    destruct (get_client st) as [[e|client] st1]; simpl in Hw.
    - by rewrite drop_all.
    - rewrite call_tool_try_create_reminder, return_result_wire, <- Hw.
      destruct (create_reminder_call_sent client args st1)
        as [-> | (reminder & Hic & ->)].
      + by rewrite drop_all.
      + rewrite drop_app_length. apply Forall_singleton.
        exists reminder. by split. }
  split; [|split; apply Hsent].
  unfold call_tool, mbind, M_bind.
  destruct (get_client st) as [[e|client] st1]; [done|].
  unfold try_except. rewrite !call_tool_try_create_reminder.
  unfold create_reminder_call, getitem, get.
  by rewrite !lookup_insert_ne, !lookup_delete_ne.
Qed.

End DispatchFacts.

(** ** The catalog *)

(** C8, as the code has it.  The catalog has 16 entries, one per client
    operation: 6 contact tools, 5 note tools and 5 reminder tools.  Each
    entry's schema mirrors the signature of the client method it is
    dispatched to (a property of the matching type for every parameter,
    the default of every parameter whose default is not [None], only
    properties the method accepts, and [required] exactly the parameters
    without default), except [dex_create_reminder], whose schema mirrors
    [create_reminder] without its [is_complete] parameter. *)
Theorem catalog_mirrors_client_but_is_complete :
  length list_tools = 16%nat
  ∧ NoDup (name <$> list_tools)
  ∧ omap dispatch_target (name <$> list_tools) ≡ₚ client_operations.*1
  ∧ length (tools_of Contacts) = 6%nat
  ∧ length (tools_of Notes) = 5%nat
  ∧ length (tools_of Reminders) = 5%nat
  ∧ "dex_complete_reminder" ∈ (name <$> tools_of Reminders)
  ∧ catalog_mirrors_client (Some "dex_create_reminder") = true
  ∧ ∃ t sg,
      list_tools !! 12%nat = Some t
      ∧ name t = "dex_create_reminder"
      ∧ operation_of t = Some (Reminders, sg)
      ∧ mirrors (inputSchema t) (without_param "is_complete" sg) = true.
Proof.
  split; [reflexivity|]. split; [compute_done|].
  split; [compute_done|].
  split; [reflexivity|]. split; [reflexivity|]. split; [reflexivity|].
  split; [compute_done|]. split; [by vm_compute|].
  do 2 eexists. split; [reflexivity|]. split; [reflexivity|].
  split; [reflexivity|]. by vm_compute.
Qed.

(** The schema of [dex_create_reminder] has no property for the
    [is_complete] parameter of [create_reminder] and so does not declare
    its default [False]: the catalog does not mirror every signature. *)
Lemma create_reminder_schema_misses_is_complete :
  catalog_mirrors_client None = false
  ∧ ∃ t sg,
      list_tools !! 12%nat = Some t
      ∧ name t = "dex_create_reminder"
      ∧ operation_of t = Some (Reminders, sg)
      ∧ "is_complete" ∈ (param_name <$> params sg)
      ∧ ("is_complete" ∉ (properties (inputSchema t)).*1)
      ∧ mirrors (inputSchema t) sg = false.
Proof.
  split; [by vm_compute|].
  do 2 eexists. split; [reflexivity|]. split; [reflexivity|].
  split; [reflexivity|]. split; [compute_done|].
  split; [compute_done|]. by vm_compute.
Qed.

Lemma create_contact_name_email_body_witness :
  "ada@example.com" ≠ "" ∧
  ∃ contact,
    wire (create_contact (dex_client "k") (VStr "Ada") (VStr "Lovelace")
            (VStr "ada@example.com") VNone (VStr "Work")
            VNone VNone VNone VNone VNone VNone
            (running "k" [Return (ok_response (VDict ∅))])).2
    = [{| req_method := "POST"; req_path := "/contacts"; req_params := None;
          req_json := Some {["contact" := VDict contact]} |}]
    ∧ contact = dict [
        ("first_name", VStr "Ada");
        ("last_name", VStr "Lovelace");
        ("job_title", VNone);
        ("description", VNone);
        ("linkedin", VNone);
        ("twitter", VNone);
        ("instagram", VNone);
        ("website", VNone);
        ("contact_emails",
         VDict {["data" := VDict {["email" := VStr "ada@example.com"]}]})]
    ∧ contact !! "contact_phone_numbers" = None.
Proof.
  split; [done|].
  apply (create_contact_name_email_body (dex_client "k") "Ada" "Lovelace"
           "ada@example.com" (running "k" [Return (ok_response (VDict ∅))])).
  done.
Defined.

(** ** Concrete runs on the scripted host *)



(** With a key that the HTTP client cannot take as a header value,
    [DexClient(api_key)] raises inside [get_client], before the [try]:
    the exception leaves [call_tool] and no client is kept. *)
Example call_tool_raises_on_unencodable_key :
  call_tool "dex_list_contacts" ∅ (fresh {["DEX_API_KEY" := "clé"]} [])
  = (Raise (OtherError "UnicodeEncodeError"
              "'ascii' codec can't encode character: ordinal not in range(128)"),
     fresh {["DEX_API_KEY" := "clé"]} []).
Proof. reflexivity. Qed.

(** A missing required argument, an HTTP error status and a connection
    failure each come back as one text item starting with ["Error: "];
    a success comes back as the serialized body. *)
Example call_tool_missing_argument :
  (call_tool "dex_get_contact" ∅ (running "k" [])).1
  = Return [{| type := "text"; text := "Error: 'contact_id'" |}].
Proof. reflexivity. Qed.

Example call_tool_http_500 :
  (call_tool "dex_get_contact" {["contact_id" := VStr "c1"]}
     (running "k" [Return (status_error "Server error '500 Internal Server Error'")])).1
  = Return [{| type := "text";
               text := "Error: Server error '500 Internal Server Error'" |}].
Proof. reflexivity. Qed.

Example call_tool_connection_failure :
  (call_tool "dex_get_contact" {["contact_id" := VStr "c1"]} (running "k" [])).1
  = Return [{| type := "text"; text := "Error: All connection attempts failed" |}].
Proof. reflexivity. Qed.

Example call_tool_success :
  call_tool "dex_get_contact" {["contact_id" := VStr "c1"]}
    (running "k" [Return (ok_response (VDict ∅))])
  = (Return [{| type := "text"; text := "{}" |}],
     {| _client := Some (dex_client "k"); environ := ∅; world := [];
        wire := [{| req_method := "GET"; req_path := "/contacts/c1";
                    req_params := None; req_json := None |}] |}).
Proof. reflexivity. Qed.



(** C9 as stated fails: called with only [first_name], [last_name] and
    [email], where the email is the empty string, [create_contact] sends a
    contact without [contact_emails]. *)
Lemma create_contact_empty_email_no_contact_emails :
  ∃ contact,
    wire (create_contact (dex_client "k") (VStr "Ada") (VStr "Lovelace")
            (VStr "") VNone (VStr "Work")
            VNone VNone VNone VNone VNone VNone
            (running "k" [Return (ok_response (VDict ∅))])).2
    = [{| req_method := "POST"; req_path := "/contacts"; req_params := None;
          req_json := Some {["contact" := VDict contact]} |}]
    ∧ contact !! "first_name" = Some (VStr "Ada")
    ∧ contact !! "contact_emails" = None.
Proof. eexists. repeat split; reflexivity. Qed.

(** C2 as stated fails in both directions on [create_contact]: an email
    and a phone that are provided as the empty string are not in the
    request body, and the omitted [job_title] is in it, as null. *)
Lemma create_contact_empty_email_dropped_null_title_sent :
  ∃ contact,
    wire (create_contact (dex_client "k") (VStr "Ada") (VStr "Lovelace")
            (VStr "") (VStr "") (VStr "Work")
            VNone VNone VNone VNone VNone VNone
            (running "k" [Return (ok_response (VDict ∅))])).2
    = [{| req_method := "POST"; req_path := "/contacts"; req_params := None;
          req_json := Some {["contact" := VDict contact]} |}]
    ∧ contact !! "contact_emails" = None
    ∧ contact !! "contact_phone_numbers" = None
    ∧ contact !! "job_title" = Some VNone.
Proof. eexists. repeat split; reflexivity. Qed.

(** A [dex_create_reminder] call that asks for [is_complete = true]
    sends [is_complete = false]. *)
Example create_reminder_tool_sends_false :
  wire (call_tool "dex_create_reminder"
          (dict [("title", VStr "Follow up"); ("due_date", VStr "2024-06-01");
                 ("is_complete", VBool true)])
          (running "k" [Return (ok_response (VDict ∅))])).2
  = [{| req_method := "POST"; req_path := "/reminders"; req_params := None;
        req_json := Some {["reminder" := VDict (dict [
          ("title", VStr "Follow up");
          ("text", VNone);
          ("is_complete", VBool false);
          ("due_at_date", VStr "2024-06-01")])]} |}].
Proof. reflexivity. Qed.


(** * Further properties of the dispatcher and the client *)

Section Effects.

Context `{Host World}.

Implicit Types (client self : DexClient) (st : State World)
  (arguments : gmap string value) (tool : string) (P : Request → Prop).

Lemma quiet_mret {A} (a : A) : quiet (mret a : M World A).
Proof. by intros st. Qed.

Lemma quiet_raise {A} (e : exn) : quiet (raise e : M World A).
Proof. by intros st. Qed.

Lemma quiet_lift {A} (r : res A) : quiet (lift r : M World A).
Proof. by intros st. Qed.

Lemma quiet_getitem arguments key :
  quiet (getitem arguments key : M World value).
Proof. unfold getitem. destruct (arguments !! key); by intros st. Qed.

Lemma quiet_pop arguments key :
  quiet (pop arguments key : M World (value * gmap string value)).
Proof. unfold pop. destruct (arguments !! key); by intros st. Qed.

Lemma quiet_sends {A} P (m : M World A) : quiet m → sends P m.
Proof. intros Hq st. destruct (Hq st) as (? & ? & ?). auto. Qed.

Lemma sends_bind_quiet {A B} P (m : M World A) (k : A → M World B) :
  quiet m → (∀ a, sends P (k a)) → sends P (m ≫= k).
Proof.
  intros Hm Hk st. unfold mbind, M_bind.
  destruct (Hm st) as (Hc & He & Hw).
  destruct (m st) as [[e|a] st1]; simpl in *; [auto|].
  destruct (Hk a st1) as (Hc' & He' & Hw').
  rewrite Hc', He', <- Hc, <- He, <- Hw. auto.
Qed.

Lemma sends_then_quiet {A B} P (m : M World A) (k : A → M World B) :
  sends P m → (∀ a, quiet (k a)) → sends P (m ≫= k).
Proof.
  intros Hm Hk st. unfold mbind, M_bind.
  destruct (Hm st) as (Hc & He & Hw).
  destruct (m st) as [[e|a] st1]; simpl in *; [auto|].
  destruct (Hk a st1) as (Hc' & He' & Hw').
  rewrite Hc', He', Hw'. auto.
Qed.

Lemma sends__request P self method path params json :
  P {| req_method := method; req_path := path;
       req_params := params; req_json := json |} →
  sends P (_request self method path params json).
Proof.
  intros HP st. rewrite _request_wire.
  split; [|split; [|right; eauto]].
  - unfold _request.
    destruct (http_request _ _ _) as [[e|response] w]; simpl; [done|].
    by destruct (raise_for_status response).
  - unfold _request.
    destruct (http_request _ _ _) as [[e|response] w]; simpl; [done|].
    by destruct (raise_for_status response).
Qed.

Lemma sends_return_result P (call : M World value) :
  sends P call → sends P (return_result call).
Proof.
  intros Hcall. apply sends_then_quiet; [done|]. intros a. apply quiet_mret.
Qed.

(** The default of [event_time] reads the clock and nothing else. *)
Lemma quiet_event_time_default (event_time : value) :
  quiet (if is_none event_time
         then λ st, let '(now, w) := utcnow_isoformat (world st) in
                    (Return (VStr now),
                     {| _client := _client st; environ := environ st;
                        world := w; wire := wire st |})
         else mret event_time : M World value).
Proof.
  destruct (is_none event_time); intros st; [|done].
  by destruct (utcnow_isoformat (world st)).
Qed.

Ltac quiet_step :=
  first [ apply quiet_getitem | apply quiet_pop | apply quiet_lift
        | apply quiet_event_time_default | apply quiet_mret
        | apply quiet_raise ].

Ltac sends_client_call :=
  unfold list_contacts, get_contact, search_contacts_by_email, create_contact,
    delete_contact, list_notes, get_notes_for_contact, create_note,
    update_note, delete_note, list_reminders, create_reminder,
    complete_reminder, update_reminder, delete_reminder;
  repeat (apply sends_bind_quiet; [quiet_step|intros ?]);
  apply sends__request; reflexivity.

(** Whatever the name and the arguments, the [try] body of [call_tool]
    leaves the client and the environment alone and sends at most one
    request, which is well shaped, and a GET for a read-only tool. *)
Lemma call_tool_try_sends client tool arguments :
  sends (λ req, request_ok tool req = true)
    (call_tool_try client tool arguments).
Proof.
  unfold call_tool_try.
  repeat match goal with
  | |- context [String.eqb tool ?lit] =>
      destruct (String.eqb_spec tool lit) as [->|_];
        [apply sends_return_result;
         first [ sends_client_call
               | apply sends_bind_quiet; [quiet_step|];
                 intros [contact_id fields]; unfold call_update_contact;
                 destruct (fields !! "self");
                   [apply quiet_sends, quiet_raise
                   |unfold update_contact; apply sends__request; reflexivity] ]
        |]
  end.
  apply quiet_sends, quiet_mret.
Qed.

Lemma get_client_environ st : environ (get_client st).2 = environ st.
Proof.
  unfold get_client. destruct (_client st); [done|].
  destruct (environ st !! "DEX_API_KEY") as [key|]; [|done].
  destruct (negb (String.eqb key "")); [|done].
  by destruct (DexClient__init__ key).
Qed.

Lemma call_tool_effect tool arguments st :
  _client (call_tool tool arguments st).2 = _client (get_client st).2
  ∧ environ (call_tool tool arguments st).2 = environ st
  ∧ (wire (call_tool tool arguments st).2 = wire st
     ∨ ∃ req, request_ok tool req = true
              ∧ wire (call_tool tool arguments st).2 = (wire st ++ [req])%list).
Proof.
  pose proof (get_client_wire st) as Hw.
  pose proof (get_client_environ st) as He.
  unfold call_tool, mbind, M_bind, try_except.
  destruct (get_client st) as [[e|client] st1]; simpl in *; [auto|].
  destruct (call_tool_try_sends client tool arguments st1) as (Hc' & He' & Hw').
  rewrite <- Hw, <- He.
  by destruct (call_tool_try client tool arguments st1) as [[e|out] st2].
Qed.

Lemma call_tool_sent tool arguments st :
  sent_by (call_tool tool arguments) st = []
  ∨ ∃ req, request_ok tool req = true
           ∧ sent_by (call_tool tool arguments) st = [req].
Proof.
  unfold sent_by.
  destruct (call_tool_effect tool arguments st)
    as (_ & _ & [-> | (req & Hreq & ->)]).
  - left. by rewrite drop_all.
  - right. exists req. split; [done|]. by rewrite drop_app_length.
Qed.

Lemma call_tool_at_most_one_aux tool arguments st :
  ∃ new,
    wire (call_tool tool arguments st).2 = (wire st ++ new)%list
    ∧ (length new ≤ 1)%nat.
Proof.
  destruct (call_tool_effect tool arguments st)
    as (_ & _ & [Hw | (req & _ & Hw)]).
  - exists []. rewrite Hw, app_nil_r. split; [done|]. simpl. lia.
  - exists [req]. split; [done|]. simpl. lia.
Qed.

Lemma call_tool_keeps_session_aux tool arguments st :
  client_available st → client_available (call_tool tool arguments st).2.
Proof.
  intros Hav.
  destruct (call_tool_effect tool arguments st) as (Hc & _ & _).
  destruct (get_client_available st Hav) as [client Hget].
  rewrite Hget in Hc. left. by rewrite Hc.
Qed.

(** X1. One tool call sends at most one request, whatever the name, the
    arguments and the answer of the HTTP stack: nothing is retried. *)
Theorem call_tool_at_most_one_request tool arguments st :
  ∃ new,
    wire (call_tool tool arguments st).2 = (wire st ++ new)%list
    ∧ (length new ≤ 1)%nat.
Proof.
  destruct (call_tool_effect tool arguments st)
    as (_ & _ & [Hw | (req & _ & Hw)]).
  - exists []. rewrite Hw, app_nil_r. split; [done|]. simpl. lia.
  - exists [req]. split; [done|]. simpl. lia.
Qed.

(** X2. Every request a tool call sends is well shaped: with a JSON body
    it is a POST or a PUT without query parameters, without one it is a
    GET or a DELETE. *)
Theorem call_tool_requests_well_shaped tool arguments st :
  Forall (λ req,
    match req_json req with
    | Some _ => (req_method req = "POST" ∨ req_method req = "PUT")
                ∧ req_params req = None
    | None => req_method req = "GET" ∨ req_method req = "DELETE"
    end) (sent_by (call_tool tool arguments) st).
Proof.
  destruct (call_tool_sent tool arguments st) as [-> | (req & Hok & ->)];
    [done|].
  apply Forall_singleton. unfold request_ok, well_shaped in Hok.
  apply andb_true_iff in Hok as [Hok _].
  destruct (req_json req).
  - apply andb_true_iff in Hok as [Hm Hp]. apply orb_true_iff in Hm.
    rewrite !String.eqb_eq in Hm. split; [done|].
    by destruct (req_params req).
  - apply orb_true_iff in Hok. by rewrite !String.eqb_eq in Hok.
Qed.

(** X4. The list, get and search tools never change anything remotely:
    every request they send is a GET without a JSON body. *)
Theorem read_only_tools_only_get tool arguments st :
  tool ∈ read_only_tools →
  Forall (λ req, req_method req = "GET" ∧ req_json req = None)
    (sent_by (call_tool tool arguments) st).
Proof.
  intros Hro.
  destruct (call_tool_sent tool arguments st) as [-> | (req & Hok & ->)];
    [done|].
  apply Forall_singleton. unfold request_ok, reads_only in Hok.
  apply andb_true_iff in Hok as [Hshape Hget].
  assert (existsb (String.eqb tool) read_only_tools = true) as Hex.
  { apply existsb_exists. exists tool.
    split; [by apply list_elem_of_In|apply String.eqb_refl]. }
  rewrite Hex in Hget. apply String.eqb_eq in Hget. split; [done|].
  unfold well_shaped in Hshape. rewrite Hget in Hshape.
  by destruct (req_json req).
Qed.

(** ** The client singleton *)

(** X5. [get_client] returns a client exactly when the global is set, or
    the environment has a non-empty [DEX_API_KEY] from which
    [DexClient(api_key)] builds a client.  With no client and the key
    missing or empty it raises the [ValueError] that names the variable;
    with no client and a key from which the client cannot be built it
    raises the constructor's exception.  Whenever it raises, the state is
    as it was (the global stays unset), so that a later call can still
    succeed. *)
Theorem get_client_succeeds_iff st :
  (client_available st ↔ ∃ client st1, get_client st = (Return client, st1))
  ∧ (_client st = None →
     environ st !! "DEX_API_KEY" = None ∨ environ st !! "DEX_API_KEY" = Some "" →
     get_client st = (Raise (ValueError missing_key_message), st))
  ∧ (∀ key e,
       _client st = None →
       environ st !! "DEX_API_KEY" = Some key →
       key ≠ "" →
       DexClient__init__ key = Raise e →
       get_client st = (Raise e, st))
  ∧ (∀ e st1, get_client st = (Raise e, st1) → st1 = st ∧ _client st = None).
Proof.
  split; [|split; [|split]].
  - split.
    + intros Hav. destruct (get_client_available st Hav) as [client Hget].
      eauto.
    + intros (client & st1 & Hget).
      destruct (_client st) as [c|] eqn:Hc; [left; by rewrite Hc|].
      right. unfold get_client in Hget. rewrite Hc in Hget.
      destruct (environ st !! "DEX_API_KEY") as [key|]; [|done].
      destruct (String.eqb key "") eqn:Hkey; [done|].
      apply String.eqb_neq in Hkey. simpl in Hget.
      destruct (DexClient__init__ key) as [e|c] eqn:Hinit; [done|].
      by exists key, c.
  - intros Hc Hkey. unfold get_client. rewrite Hc.
    by destruct Hkey as [-> | ->].
  - intros key e Hc Hk Hne Hinit. unfold get_client. rewrite Hc, Hk.
    apply String.eqb_neq in Hne. rewrite Hne. simpl. by rewrite Hinit.
  - apply get_client_raises.
Qed.

(** X6. The API key is read once: after [get_client] has returned a
    client, it returns that same client and changes nothing, whatever the
    environment has become (the variable removed or set to another key). *)
Theorem get_client_reads_key_once st client st1 (env : gmap string string) :
  get_client st = (Return client, st1) →
  get_client (with_environ env st1) = (Return client, with_environ env st1).
Proof.
  intros Hget. assert (_client st1 = Some client) as Hc.
  { unfold get_client in Hget. destruct (_client st) as [c|] eqn:Hst.
    - injection Hget as <- <-. done.
    - destruct (environ st !! "DEX_API_KEY") as [key|]; [|done].
      destruct (negb (String.eqb key "")); [|done].
      destruct (DexClient__init__ key) as [e|c]; [done|].
      by injection Hget as <- <-. }
  unfold get_client, with_environ. simpl. by rewrite Hc.
Qed.

(** X7. A client that [get_client] creates carries the key of the
    environment: its [api_key] is the non-empty value of [DEX_API_KEY], sent
    as the [x-hasura-dex-api-key] header next to
    [Content-Type: application/json], against the fixed base URL with a
    30-second timeout; creating it sends nothing. *)
Theorem get_client_builds_from_environment st client st1 :
  _client st = None →
  get_client st = (Return client, st1) →
  environ st !! "DEX_API_KEY" = Some (api_key client)
  ∧ api_key client ≠ ""
  ∧ headers (_http client)
    = [("Content-Type", "application/json");
       ("x-hasura-dex-api-key", api_key client)]
  ∧ base_url (_http client) = "https://api.getdex.com/api/rest"
  ∧ timeout (_http client) = 30
  ∧ _client st1 = Some client
  ∧ wire st1 = wire st.
Proof.
  intros Hnone Hget. unfold get_client in Hget. rewrite Hnone in Hget.
  destruct (environ st !! "DEX_API_KEY") as [key|]; [|done].
  destruct (String.eqb key "") eqn:Hkey; [done|].
  apply String.eqb_neq in Hkey.
  simpl in Hget. unfold DexClient__init__ in Hget.
  destruct (async_client_error _ _ _); [done|].
  by injection Hget as <- <-.
Qed.

(** ** A session of tool calls *)

Lemma call_tool_returns_text tool arguments st :
  client_available st → one_text (call_tool tool arguments st).1.
Proof.
  intros Hav. destruct (get_client_available st Hav) as [client Hget].
  rewrite (call_tool_unfold _ _ _ _ _ Hget).
  destruct (call_tool_try client tool arguments _) as [[e|out] st2] eqn:Htry.
  - by eexists.
  - destruct (call_tool_try_shape client tool arguments) as [[call Hc]|Hc];
      rewrite Hc in Htry.
    + apply return_result_returns in Htry as (result & _ & ->). by eexists.
    + injection Htry as <- <-. by eexists.
Qed.

(** X8. A tool call keeps the session usable: from a state in which a
    client is available, the state after the call, whether the call
    succeeded or failed, has a client, the one that existed before if there
    was one, and the same environment. *)
Theorem call_tool_keeps_session tool arguments st :
  client_available st →
  is_Some (_client (call_tool tool arguments st).2)
  ∧ (∀ c, _client st = Some c → _client (call_tool tool arguments st).2 = Some c)
  ∧ environ (call_tool tool arguments st).2 = environ st
  ∧ client_available (call_tool tool arguments st).2.
Proof.
  intros Hav.
  destruct (call_tool_effect tool arguments st) as (Hc & He & _).
  destruct (get_client_available st Hav) as [client Hget].
  rewrite Hget in Hc. simpl in Hc.
  split; [by rewrite Hc|]. split; [|split; [done|left; by rewrite Hc]].
  intros c Hst. rewrite Hc. unfold get_client in Hget. rewrite Hst in Hget.
  by injection Hget as <-.
Qed.

(** X9. Any sequence of tool calls served from a state in which a client
    is available yields, call after call, exactly one text item each: no
    failed call (unknown name, missing argument, HTTP error, connection
    failure) breaks the calls after it; and the calls together send at most
    one request each. *)
Theorem serve_always_answers (calls : list (string * gmap string value)) st :
  client_available st →
  Forall one_text (serve calls st).1
  ∧ length (serve calls st).1 = length calls
  ∧ ∃ new, wire (serve calls st).2 = (wire st ++ new)%list
           ∧ (length new ≤ length calls)%nat.
Proof.
  revert st. induction calls as [|[tool arguments] calls IH]; intros st Hav.
  - simpl. split; [done|]. split; [done|]. exists []. by rewrite app_nil_r.
  - simpl.
    pose proof (call_tool_returns_text tool arguments st Hav) as Htext.
    pose proof (call_tool_keeps_session_aux tool arguments st Hav) as Hav'.
    destruct (call_tool_at_most_one_aux tool arguments st) as (new1 & Hw1 & Hl1).
    destruct (call_tool tool arguments st) as [r st1]. simpl in *.
    destruct (IH st1 Hav') as (Hall & Hlen & new & Hw & Hl).
    destruct (serve calls st1) as [rs st2]. simpl in *.
    split; [by constructor|]. split; [by rewrite Hlen|].
    exists (new1 ++ new)%list. rewrite Hw, Hw1, app_assoc.
    split; [done|]. rewrite length_app. lia.
Qed.

(** ** Arguments *)

(** Reduce [call_tool_try] at a literal tool name to its branch. *)
Ltac pick_branch :=
  lazy beta iota fix delta [call_tool_try String.eqb Ascii.eqb Bool.eqb andb].

Ltac missing_cases H :=
  cbn [name inputSchema required declared_required missing_required
       List.filter] in H;
  repeat match type of H with
  | context [?a !! ?k] => destruct (a !! k) eqn:?; cbn [List.filter] in H
  end.

Lemma first_missing_reported_by_all :
  Forall (λ t, ∀ arguments st k rest,
    client_available st →
    missing_required (inputSchema t) arguments = k :: rest →
    ∃ st',
      call_tool (name t) arguments st
      = (Return [{| type := "text"; text := "Error: '" ++ k ++ "'" |}], st')
      ∧ wire st' = wire st) list_tools.
Proof.
  unfold list_tools.
  repeat (apply List.Forall_cons; [
    intros arguments st k rest Hav Hmiss;
    destruct (get_client_available st Hav) as [client Hget];
    rewrite (call_tool_unfold _ _ _ _ _ Hget);
    cbn [name]; pick_branch;
    missing_cases Hmiss; try discriminate Hmiss;
    injection Hmiss as <- <-;
    unfold return_result, getitem, pop, mbind, M_bind, raise, mret, M_ret;
    repeat match goal with Hl : _ !! _ = _ |- _ => rewrite Hl; clear Hl end;
    eexists; split; reflexivity |]).
  apply List.Forall_nil.
Qed.

(** X10. A call that lacks required arguments of the tool's schema comes
    back as the text ["Error: '<key>'"], where [<key>] is the first
    missing required name in schema order, and sends no request. *)
Theorem call_tool_reports_first_missing_required t arguments st k rest :
  t ∈ list_tools →
  client_available st →
  missing_required (inputSchema t) arguments = k :: rest →
  ∃ st',
    call_tool (name t) arguments st
    = (Return [{| type := "text"; text := "Error: '" ++ k ++ "'" |}], st')
    ∧ wire st' = wire st.
Proof.
  intros Hin. revert arguments st k rest.
  pose proof first_missing_reported_by_all as Hall.
  rewrite List.Forall_forall in Hall. by apply Hall, list_elem_of_In.
Qed.

Ltac unfold_client_call :=
  unfold list_contacts, get_contact, search_contacts_by_email, create_contact,
    delete_contact, list_notes, get_notes_for_contact, update_note,
    delete_note, list_reminders, complete_reminder, update_reminder,
    delete_reminder.

Lemma one_request_sent_by_all :
  Forall (λ t, ∀ arguments st,
    client_available st →
    name t ∉ guarded_tools →
    missing_required (inputSchema t) arguments = [] →
    ∃ req, sent_by (call_tool (name t) arguments) st = [req]) list_tools.
Proof.
  unfold list_tools.
  repeat (apply List.Forall_cons; [
    intros arguments st Hav Hfree Hmiss; cbn [name] in *;
    first [ exfalso; apply Hfree; compute_done
          | destruct (get_client_available st Hav) as [client Hget];
            unfold sent_by; rewrite call_tool_wire, Hget;
            pick_branch; rewrite return_result_wire;
            missing_cases Hmiss; try discriminate Hmiss;
            unfold getitem, mbind, M_bind, mret, M_ret;
            repeat match goal with
                   | Hl : _ !! _ = _ |- _ => rewrite Hl; clear Hl
                   end;
            lazy beta iota; unfold_client_call; rewrite _request_wire;
            cbn [wire]; rewrite drop_app_length; by eexists ] |]).
  apply List.Forall_nil.
Qed.

(** X11. Apart from the three tools whose client call can fail before the
    request is made ([dex_update_contact], [dex_create_note],
    [dex_create_reminder]), a call with all the required arguments of the
    tool's schema sends exactly one request, whatever the other arguments
    are. *)
Theorem call_tool_sends_one_request_when_complete t arguments st :
  t ∈ list_tools →
  client_available st →
  name t ∉ guarded_tools →
  missing_required (inputSchema t) arguments = [] →
  ∃ req, sent_by (call_tool (name t) arguments) st = [req].
Proof.
  intros Hin. revert arguments st.
  pose proof one_request_sent_by_all as Hall.
  rewrite List.Forall_forall in Hall. by apply Hall, list_elem_of_In.
Qed.

Lemma call_tool_ext tool arguments arguments' st :
  (∀ client, call_tool_try client tool arguments
             = call_tool_try client tool arguments') →
  call_tool tool arguments st = call_tool tool arguments' st.
Proof.
  intros Hsame. unfold call_tool, mbind, M_bind, try_except.
  destruct (get_client st) as [[e|client] st1]; [done|]. by rewrite Hsame.
Qed.

Lemma undeclared_ignored_by_all :
  Forall (λ t, ∀ arguments k v st,
    name t ≠ "dex_update_contact" →
    k ∉ (properties (inputSchema t)).*1 →
    call_tool (name t) (<[k := v]> arguments) st
    = call_tool (name t) arguments st) list_tools.
Proof.
  unfold list_tools.
  repeat (apply List.Forall_cons; [
    intros arguments k v st Hname Hk; cbn [name] in *;
    first [ by destruct Hname
          | cbn [inputSchema properties fmap list_fmap fst] in Hk;
            rewrite !not_elem_of_cons in Hk; destruct_and!;
            apply call_tool_ext; intros client; pick_branch;
            unfold getitem, get;
            rewrite ?lookup_insert_ne by done; reflexivity ] |]).
  apply List.Forall_nil.
Qed.

(** X12. Arguments that the tool's schema does not declare are ignored:
    for every tool but [dex_update_contact], adding or changing an argument
    whose name is not a property of the schema changes neither the result
    nor the request. *)
Theorem call_tool_ignores_undeclared_arguments t arguments k (v : value) st :
  t ∈ list_tools →
  name t ≠ "dex_update_contact" →
  k ∉ (properties (inputSchema t)).*1 →
  call_tool (name t) (<[k := v]> arguments) st
  = call_tool (name t) arguments st.
Proof.
  intros Hin. revert arguments k v st.
  pose proof undeclared_ignored_by_all as Hall.
  rewrite List.Forall_forall in Hall. by apply Hall, list_elem_of_In.
Qed.

(** X13. The three list tools send one GET to their collection with the
    query parameters [limit] and [offset]: the values of the arguments
    when the keys are there (an explicit null included), 10 and 0 when
    they are not. *)
Theorem list_tools_paginate tool path arguments st :
  (tool, path) ∈ list_endpoints →
  client_available st →
  sent_by (call_tool tool arguments) st
  = [{| req_method := "GET"; req_path := path;
        req_params := Some (dict [
          ("limit", default (VInt 10) (arguments !! "limit"));
          ("offset", default (VInt 0) (arguments !! "offset"))]);
        req_json := None |}].
Proof.
  intros Hin Hav. destruct (get_client_available st Hav) as [client Hget].
  unfold sent_by. rewrite call_tool_wire, Hget.
  apply list_elem_of_In in Hin. simpl in Hin.
  destruct Hin as [Heq|[Heq|[Heq|[]]]]; injection Heq as <- <-;
    pick_branch; rewrite return_result_wire;
    unfold list_contacts, list_notes, list_reminders, get;
    rewrite _request_wire; cbn [wire]; rewrite drop_app_length;
    by destruct (arguments !! "limit"), (arguments !! "offset").
Qed.

(** X14. [dex_update_contact] sends every argument except [contact_id] as
    a field of the contact: one PUT to [/contacts/<contact_id>] whose
    ["contact"] object is the argument mapping without the [contact_id]
    key, whatever the other keys are. *)
Theorem update_contact_tool_sends_other_arguments arguments (id : value) st :
  client_available st →
  arguments !! "contact_id" = Some id →
  arguments !! "self" = None →
  sent_by (call_tool "dex_update_contact" arguments) st
  = [{| req_method := "PUT"; req_path := "/contacts/" ++ format_value id;
        req_params := None;
        req_json := Some {["contact" := VDict (delete "contact_id" arguments)]} |}]
  ∧ delete "contact_id" arguments !! "contact_id" = None.
Proof.
  intros Hav Hid Hself. destruct (get_client_available st Hav) as [client Hget].
  split; [|apply lookup_delete_eq].
  unfold sent_by. rewrite call_tool_wire, Hget.
  pick_branch. rewrite return_result_wire.
  unfold pop, mbind, M_bind, mret, M_ret. rewrite Hid. lazy beta iota.
  unfold call_update_contact. rewrite lookup_delete_ne, Hself by done.
  unfold update_contact. rewrite _request_wire. cbn [wire].
  by rewrite drop_app_length.
Qed.

(** X15. An argument named [self] makes [dex_update_contact] fail before
    any request: the keyword collides with the method's own first
    parameter, and the call comes back as an error text. *)
Theorem update_contact_tool_rejects_self arguments (id v : value) st :
  client_available st →
  arguments !! "contact_id" = Some id →
  arguments !! "self" = Some v →
  (call_tool "dex_update_contact" arguments st).1
  = Return [{| type := "text";
               text := "Error: DexClient.update_contact() got multiple values for argument 'self'" |}]
  ∧ sent_by (call_tool "dex_update_contact" arguments) st = [].
Proof.
  intros Hav Hid Hself. destruct (get_client_available st Hav) as [client Hget].
  assert (call_tool_try client "dex_update_contact" arguments
          = raise (TypeError
              "DexClient.update_contact() got multiple values for argument 'self'"))
    as Htry.
  { pick_branch.
    unfold return_result, pop, mbind, M_bind, mret, M_ret. rewrite Hid.
    lazy beta iota. unfold call_update_contact.
    by rewrite lookup_delete_ne, Hself by done. }
  split.
  - rewrite (call_tool_unfold _ _ _ _ _ Hget), Htry. reflexivity.
  - unfold sent_by. rewrite call_tool_wire, Hget, Htry. cbn [wire raise snd].
    by rewrite drop_all.
Qed.

Lemma none_is_omitted_by_all :
  Forall (λ '(tool, key), ∀ arguments st,
    call_tool tool (<[key := VNone]> arguments) st
    = call_tool tool (delete key arguments) st) none_default_arguments.
Proof.
  unfold none_default_arguments.
  repeat (apply List.Forall_cons; [
    intros arguments st; apply call_tool_ext; intros client; pick_branch;
    unfold getitem, get;
    rewrite ?lookup_insert_eq, ?lookup_delete_eq;
    rewrite ?lookup_insert_ne, ?lookup_delete_ne by done; reflexivity |]).
  apply List.Forall_nil.
Qed.

(** X16. For the arguments that [call_tool] reads with a default of
    [None] (the optional fields of [dex_create_contact], [event_time] of
    [dex_create_note], [contact_ids] and [text] of [dex_create_reminder],
    the four fields of [dex_update_reminder]), passing null is the same as
    leaving the argument out: same result, same request. *)
Theorem null_argument_is_omitted tool key arguments st :
  (tool, key) ∈ none_default_arguments →
  call_tool tool (<[key := VNone]> arguments) st
  = call_tool tool (delete key arguments) st.
Proof.
  intros Hin. revert arguments st.
  pose proof none_is_omitted_by_all as Hall.
  rewrite List.Forall_forall in Hall.
  apply list_elem_of_In in Hin. apply (Hall _ Hin).
Qed.

(** ** Contact lists that are not lists *)

(** X17. [dex_create_note] with a [contact_ids] that cannot be iterated
    (null, a boolean, a number) sends nothing: the comprehension raises
    before the request, and the call comes back as the text
    ["Error: '<type>' object is not iterable"]. *)
Theorem create_note_tool_rejects_non_iterable arguments (note ids : value) st :
  client_available st →
  arguments !! "note" = Some note →
  arguments !! "contact_ids" = Some ids →
  match ids with VList _ | VStr _ | VDict _ => False | _ => True end →
  (call_tool "dex_create_note" arguments st).1
  = Return [{| type := "text";
               text := "Error: '" ++ type_name ids ++ "' object is not iterable" |}]
  ∧ sent_by (call_tool "dex_create_note" arguments) st = [].
Proof.
  intros Hav Hnote Hids Hbad.
  destruct (get_client_available st Hav) as [client Hget].
  assert (contact_refs ids
          = Raise (TypeError ("'" ++ type_name ids ++ "' object is not iterable")))
    as Hrefs by (by destruct ids).
  assert (∃ st2,
    call_tool_try client "dex_create_note" arguments
      {| _client := Some client; environ := environ st;
         world := world st; wire := wire st |}
    = (Raise (TypeError ("'" ++ type_name ids ++ "' object is not iterable")),
       st2)
    ∧ wire st2 = wire st) as (st2 & Htry & Hwire).
  { pick_branch.
    unfold return_result, getitem, mbind, M_bind, mret, M_ret.
    rewrite Hnote, Hids. lazy beta iota.
    unfold create_note, mbind, M_bind, mret, M_ret, lift. rewrite Hrefs.
    destruct (is_none (get arguments "event_time" VNone)).
    - cbn [world]. destruct (utcnow_isoformat (world st)) as [now w].
      by eexists.
    - by eexists. }
  split.
  - by rewrite (call_tool_unfold _ _ _ _ _ Hget), Htry.
  - unfold sent_by. rewrite call_tool_wire, Hget, Htry. cbn [snd].
    by rewrite Hwire, drop_all.
Qed.


(** ** Outcome of the round trip *)

Lemma _request_fails self method path params json st e :
  http_fails_with e (world st) →
  (_request self method path params json st).1 = Raise e.
Proof.
  intros Hfail. unfold _request.
  specialize (Hfail (_http self)
    {| req_method := method; req_path := path;
       req_params := params; req_json := json |}).
  destruct (http_request _ _ _) as [[e'|response] w]; simpl.
  - by rewrite Hfail.
  - by rewrite Hfail.
Qed.

Lemma _request_answers self method path params json st body :
  http_answers body (world st) →
  (_request self method path params json st).1 = Return body.
Proof.
  intros Hans. unfold _request.
  destruct (Hans (_http self)
    {| req_method := method; req_path := path;
       req_params := params; req_json := json |})
    as (response & w & -> & Hstatus & Hjson).
  simpl. by rewrite Hstatus.
Qed.

Lemma return_result_fst (call : M World value) st :
  (return_result call st).1
  = match (call st).1 with
    | Raise e => Raise e
    | Return result => Return [{| type := "text"; text := json_dumps result |}]
    end.
Proof.
  unfold return_result, mbind, M_bind, mret, M_ret.
  by destruct (call st) as [[e|result] st1].
Qed.

Lemma call_tool_fst tool arguments st client st1 :
  get_client st = (Return client, st1) →
  (call_tool tool arguments st).1
  = match (call_tool_try client tool arguments st1).1 with
    | Raise e => Return [{| type := "text"; text := "Error: " ++ str_exn e |}]
    | Return out => Return out
    end.
Proof.
  intros Hget. rewrite (call_tool_unfold _ _ _ _ _ Hget).
  by destruct (call_tool_try client tool arguments st1) as [[e|out] st2].
Qed.

Ltac to_client_call Hav Hmiss :=
  let client := fresh "client" in
  let Hget := fresh "Hget" in
  destruct (get_client_available _ Hav) as [client Hget];
  rewrite (call_tool_fst _ _ _ _ _ Hget);
  pick_branch; rewrite return_result_fst;
  missing_cases Hmiss; try discriminate Hmiss;
  unfold getitem, mbind, M_bind, mret, M_ret;
  repeat match goal with
         | Hl : _ !! _ = _ |- _ => rewrite Hl; clear Hl
         end;
  lazy beta iota; unfold_client_call.

Lemma failure_reported_by_all :
  Forall (λ t, ∀ arguments st e,
    client_available st →
    name t ∉ guarded_tools →
    missing_required (inputSchema t) arguments = [] →
    http_fails_with e (world st) →
    (call_tool (name t) arguments st).1
    = Return [{| type := "text"; text := "Error: " ++ str_exn e |}]) list_tools.
Proof.
  unfold list_tools.
  repeat (apply List.Forall_cons; [
    intros arguments st e Hav Hfree Hmiss Hfail; cbn [name] in *;
    first [ exfalso; apply Hfree; compute_done
          | to_client_call Hav Hmiss;
            rewrite (_request_fails _ _ _ _ _ _ e) by exact Hfail;
            reflexivity ] |]).
  apply List.Forall_nil.
Qed.

Lemma success_serialized_by_all :
  Forall (λ t, ∀ arguments st body,
    client_available st →
    name t ∉ guarded_tools →
    missing_required (inputSchema t) arguments = [] →
    http_answers body (world st) →
    (call_tool (name t) arguments st).1
    = Return [{| type := "text"; text := json_dumps body |}]) list_tools.
Proof.
  unfold list_tools.
  repeat (apply List.Forall_cons; [
    intros arguments st body Hav Hfree Hmiss Hans; cbn [name] in *;
    first [ exfalso; apply Hfree; compute_done
          | to_client_call Hav Hmiss;
            rewrite (_request_answers _ _ _ _ _ _ body) by exact Hans;
            reflexivity ] |]).
  apply List.Forall_nil.
Qed.

(** X19. When the round trip fails with an exception [e], because the
    HTTP stack raises it or because the response has an error status (its
    body is then not looked at), a call with all its required arguments
    comes back as the text ["Error: "] followed by the message of [e]. *)
Theorem call_tool_reports_http_failure t arguments st e :
  t ∈ list_tools →
  client_available st →
  name t ∉ guarded_tools →
  missing_required (inputSchema t) arguments = [] →
  http_fails_with e (world st) →
  (call_tool (name t) arguments st).1
  = Return [{| type := "text"; text := "Error: " ++ str_exn e |}].
Proof.
  intros Hin. revert arguments st e.
  pose proof failure_reported_by_all as Hall.
  rewrite List.Forall_forall in Hall. by apply Hall, list_elem_of_In.
Qed.

(** X20. When the remote API answers with a success status and a body, a
    call with all its required arguments comes back as the serialization
    of that body, unchanged, whatever the tool. *)
Theorem call_tool_returns_serialized_body t arguments st body :
  t ∈ list_tools →
  client_available st →
  name t ∉ guarded_tools →
  missing_required (inputSchema t) arguments = [] →
  http_answers body (world st) →
  (call_tool (name t) arguments st).1
  = Return [{| type := "text"; text := json_dumps body |}].
Proof.
  intros Hin. revert arguments st body.
  pose proof success_serialized_by_all as Hall.
  rewrite List.Forall_forall in Hall. by apply Hall, list_elem_of_In.
Qed.

End Effects.

(** ** Concrete runs for the further properties *)

Lemma read_only_tools_only_get_witness :
  "dex_get_contact" ∈ read_only_tools
  ∧ Forall (λ req, req_method req = "GET" ∧ req_json req = None)
      (sent_by (call_tool "dex_get_contact" {["contact_id" := VStr "c1"]})
         (running "k" [Return (ok_response (VDict ∅))])).
Proof.
  assert (Hin : "dex_get_contact" ∈ read_only_tools) by compute_done.
  split; [exact Hin|].
  exact (read_only_tools_only_get "dex_get_contact" {["contact_id" := VStr "c1"]}
           (running "k" [Return (ok_response (VDict ∅))]) Hin).
Defined.

Lemma get_client_succeeds_iff_witness :
  get_client (fresh ∅ []) = (Raise (ValueError missing_key_message), fresh ∅ [])
  ∧ get_client (fresh {["DEX_API_KEY" := "clé"]} [])
    = (Raise (OtherError "UnicodeEncodeError"
                "'ascii' codec can't encode character: ordinal not in range(128)"),
       fresh {["DEX_API_KEY" := "clé"]} []).
Proof.
  split.
  - exact (proj1 (proj2 (get_client_succeeds_iff (fresh ∅ [])))
             eq_refl (or_introl eq_refl)).
  - apply (proj1 (proj2 (proj2
             (get_client_succeeds_iff (fresh {["DEX_API_KEY" := "clé"]} []))))
             "clé"); [reflexivity|reflexivity|discriminate|reflexivity].
Defined.

Lemma get_client_reads_key_once_witness :
  get_client (with_environ ∅
                (get_client (fresh {["DEX_API_KEY" := "secret"]} [])).2)
  = (Return (dex_client "secret"),
     with_environ ∅ (get_client (fresh {["DEX_API_KEY" := "secret"]} [])).2).
Proof.
  apply (get_client_reads_key_once (fresh {["DEX_API_KEY" := "secret"]} [])).
  reflexivity.
Defined.

Lemma get_client_builds_from_environment_witness :
  (fresh {["DEX_API_KEY" := "secret"]} []).(environ) !! "DEX_API_KEY"
  = Some (api_key (dex_client "secret"))
  ∧ api_key (dex_client "secret") ≠ ""
  ∧ headers (_http (dex_client "secret"))
    = [("Content-Type", "application/json");
       ("x-hasura-dex-api-key", api_key (dex_client "secret"))]
  ∧ base_url (_http (dex_client "secret"))
    = "https://api.getdex.com/api/rest"
  ∧ timeout (_http (dex_client "secret")) = 30
  ∧ _client (get_client (fresh {["DEX_API_KEY" := "secret"]} [])).2
    = Some (dex_client "secret")
  ∧ wire (get_client (fresh {["DEX_API_KEY" := "secret"]} [])).2
    = wire (fresh {["DEX_API_KEY" := "secret"]} []).
Proof.
  apply (get_client_builds_from_environment
           (fresh {["DEX_API_KEY" := "secret"]} [])); reflexivity.
Defined.

Lemma call_tool_keeps_session_witness :
  client_available (fresh {["DEX_API_KEY" := "secret"]} [])
  ∧ client_available
      (call_tool "dex_get_contact" ∅ (fresh {["DEX_API_KEY" := "secret"]} [])).2.
Proof.
  assert (Hav : client_available (fresh {["DEX_API_KEY" := "secret"]} [])).
  { right. exists "secret", (dex_client "secret").
    split; [reflexivity|]. split; [discriminate|reflexivity]. }
  split; [exact Hav|].
  apply (call_tool_keeps_session "dex_get_contact" ∅
           (fresh {["DEX_API_KEY" := "secret"]} []) Hav).
Defined.

Lemma serve_always_answers_witness :
  Forall one_text
    (serve [("dex_export_contacts", ∅);
            ("dex_get_contact", ∅);
            ("dex_get_contact", {["contact_id" := VStr "c1"]});
            ("dex_list_notes", ∅)]
       (fresh {["DEX_API_KEY" := "secret"]}
          [Return (status_error "Server error '500 Internal Server Error'")])).1.
Proof.
  apply (serve_always_answers _
           (fresh {["DEX_API_KEY" := "secret"]}
              [Return (status_error "Server error '500 Internal Server Error'")])).
  right. exists "secret", (dex_client "secret").
  split; [reflexivity|]. split; [discriminate|reflexivity].
Defined.

Lemma call_tool_reports_first_missing_required_witness :
  ∃ t,
    list_tools !! 3%nat = Some t
    ∧ missing_required (inputSchema t) {["first_name" := VStr "Ada"]}
      = ["last_name"]
    ∧ ∃ st',
        call_tool (name t) {["first_name" := VStr "Ada"]} (running "k" [])
        = (Return [{| type := "text"; text := "Error: '" ++ "last_name" ++ "'" |}],
           st')
        ∧ wire st' = wire (running "k" []).
Proof.
  eexists. split; [reflexivity|]. split; [reflexivity|].
  eapply call_tool_reports_first_missing_required.
  - apply list_elem_of_lookup. by exists 3%nat.
  - left. by eexists.
  - reflexivity.
Defined.

Lemma call_tool_sends_one_request_when_complete_witness :
  ∃ t,
    list_tools !! 1%nat = Some t
    ∧ ∃ req,
        sent_by (call_tool (name t) {["contact_id" := VStr "c1"]})
          (running "k" []) = [req].
Proof.
  eexists. split; [reflexivity|].
  apply call_tool_sends_one_request_when_complete.
  - apply list_elem_of_lookup. by exists 1%nat.
  - left. by eexists.
  - compute_done.
  - reflexivity.
Defined.

Lemma call_tool_ignores_undeclared_arguments_witness :
  ∃ t,
    list_tools !! 1%nat = Some t
    ∧ call_tool (name t)
        (<["verbose" := VBool true]> {["contact_id" := VStr "c1"]})
        (running "k" [])
      = call_tool (name t) {["contact_id" := VStr "c1"]} (running "k" []).
Proof.
  eexists. split; [reflexivity|].
  apply call_tool_ignores_undeclared_arguments.
  - apply list_elem_of_lookup. by exists 1%nat.
  - discriminate.
  - compute_done.
Defined.

Lemma list_tools_paginate_witness :
  sent_by (call_tool "dex_list_notes" {["limit" := VNone]})
    (running "k" [Return (ok_response (VDict ∅))])
  = [{| req_method := "GET"; req_path := "/timeline_items";
        req_params := Some (dict [("limit", VNone); ("offset", VInt 0)]);
        req_json := None |}].
Proof.
  assert (Hin : ("dex_list_notes", "/timeline_items") ∈ list_endpoints).
  { apply list_elem_of_lookup. by exists 1%nat. }
  assert (Hav : client_available (running "k" [Return (ok_response (VDict ∅))])).
  { left. by eexists. }
  exact (list_tools_paginate "dex_list_notes" "/timeline_items"
           {["limit" := VNone]} _ Hin Hav).
Defined.

Lemma update_contact_tool_sends_other_arguments_witness :
  sent_by (call_tool "dex_update_contact"
             (dict [("contact_id", VStr "c1"); ("job_title", VStr "CTO");
                    ("nickname", VStr "Al")]))
    (running "k" [])
  = [{| req_method := "PUT"; req_path := "/contacts/c1"; req_params := None;
        req_json := Some {["contact" := VDict (dict [
          ("job_title", VStr "CTO"); ("nickname", VStr "Al")])]} |}].
Proof.
  assert (Hav : client_available (running "k" [])).
  { left. by eexists. }
  exact (proj1 (update_contact_tool_sends_other_arguments
           (dict [("contact_id", VStr "c1"); ("job_title", VStr "CTO");
                  ("nickname", VStr "Al")]) (VStr "c1") (running "k" [])
           Hav eq_refl eq_refl)).
Defined.

Lemma update_contact_tool_rejects_self_witness :
  sent_by (call_tool "dex_update_contact"
             (dict [("contact_id", VStr "c1"); ("self", VStr "x")]))
    (running "k" [])
  = [].
Proof.
  assert (Hav : client_available (running "k" [])).
  { left. by eexists. }
  exact (proj2 (update_contact_tool_rejects_self
           (dict [("contact_id", VStr "c1"); ("self", VStr "x")])
           (VStr "c1") (VStr "x") (running "k" []) Hav eq_refl eq_refl)).
Defined.

Lemma null_argument_is_omitted_witness :
  call_tool "dex_update_reminder"
    (<["title" := VNone]> {["reminder_id" := VStr "r1"]}) (running "k" [])
  = call_tool "dex_update_reminder"
      (delete "title" {["reminder_id" := VStr "r1"]}) (running "k" []).
Proof.
  apply (null_argument_is_omitted "dex_update_reminder" "title").
  apply list_elem_of_lookup. by exists 11%nat.
Defined.

Lemma create_note_tool_rejects_non_iterable_witness :
  (call_tool "dex_create_note"
     (dict [("note", VStr "Lunch"); ("contact_ids", VNone)])
     (running "k" [])).1
  = Return [{| type := "text";
               text := "Error: 'NoneType' object is not iterable" |}]
  ∧ sent_by (call_tool "dex_create_note"
               (dict [("note", VStr "Lunch"); ("contact_ids", VNone)]))
      (running "k" []) = [].
Proof.
  apply (create_note_tool_rejects_non_iterable
           (dict [("note", VStr "Lunch"); ("contact_ids", VNone)])
           (VStr "Lunch") VNone (running "k" [])).
  - left. by eexists.
  - reflexivity.
  - reflexivity.
  - exact I.
Defined.

Lemma call_tool_reports_http_failure_witness :
  ∃ t,
    list_tools !! 1%nat = Some t
    ∧ (call_tool (name t) {["contact_id" := VStr "c1"]} (running "k" [])).1
      = Return [{| type := "text";
                   text := "Error: " ++ "All connection attempts failed" |}].
Proof.
  eexists. split; [reflexivity|].
  apply (call_tool_reports_http_failure _ _ (running "k" [])
           (OtherError "ConnectError" "All connection attempts failed")).
  - apply list_elem_of_lookup. by exists 1%nat.
  - left. by eexists.
  - compute_done.
  - reflexivity.
  - intros http req. reflexivity.
Defined.

Lemma call_tool_returns_serialized_body_witness :
  ∃ t,
    list_tools !! 1%nat = Some t
    ∧ (call_tool (name t) {["contact_id" := VStr "c1"]}
         (running "k" [Return (ok_response (VDict ∅))])).1
      = Return [{| type := "text"; text := json_dumps (VDict ∅) |}].
Proof.
  eexists. split; [reflexivity|].
  apply (call_tool_returns_serialized_body _ _
           (running "k" [Return (ok_response (VDict ∅))]) (VDict ∅)).
  - apply list_elem_of_lookup. by exists 1%nat.
  - left. by eexists.
  - compute_done.
  - reflexivity.
  - intros http req. by do 2 eexists.
Defined.
